(** * mapper_generic: metadata normalisation and geolocation resolution

    A shallow embedding of [mappers/mapper_generic.py] (class [Mapper]):
    the normalisation of the dataset metadata, the selection of the
    reference subdataset, the construction of the band descriptors, the
    parsing of ground-control points out of the metadata and the choice of
    the geolocation model.

    Python values are embedded as follows.
    - [str] is [string]; the methods the mapper calls ([split], [replace],
      [strip], [in], the [%] formatting) are written out below.
    - a [dict] that is only read by key and counted is a [gmap string _];
      the input metadata, whose iteration order decides which entry wins,
      is an association list in iteration order.
    - an exception is a value of [exn]; code that can raise returns a
      [result].
    - the VRT container the mapper writes to is outside this file: the
      calls made on it are recorded, in order, as a list of [call]. *)

From stdpp Require Import gmap strings list fin_maps pretty.
From Stdlib Require Import Ascii QArith Qreduction.

Local Open Scope Z_scope.

(** ** Python strings *)

Module PyStr.

(** [s.startswith(p)] *)
Fixpoint startswith (p s : string) : bool :=
  match p, s with
  | EmptyString, _ => true
  | String a p', String b s' => if decide (a = b) then startswith p' s' else false
  | String _ _, EmptyString => false
  end.

(** [s.find(sub)]: index of the leftmost occurrence. *)
Fixpoint find (sub s : string) {struct s} : option nat :=
  if startswith sub s then Some 0%nat
  else match s with
       | EmptyString => None
       | String _ s' => S <$> find sub s'
       end.

(** [sub in s] *)
Definition contains (sub s : string) : bool :=
  match find sub s with Some _ => true | None => false end.

Fixpoint take (n : nat) (s : string) : string :=
  match n, s with
  | S n', String c s' => String c (take n' s')
  | _, _ => EmptyString
  end.

Fixpoint drop (n : nat) (s : string) : string :=
  match n, s with
  | S n', String _ s' => drop n' s'
  | _, _ => s
  end.

(** [s.split(sep)] for a non-empty separator: cut at the leftmost
    occurrence, continue after it. The string gets shorter by at least
    the separator at each cut, so [String.length s] cuts are enough. *)
Fixpoint split_from (fuel : nat) (sep s : string) : list string :=
  match fuel with
  | O => [s]
  | S fuel' =>
      match find sep s with
      | None => [s]
      | Some i => take i s :: split_from fuel' sep (drop (i + String.length sep) s)
      end
  end.

Definition split (sep s : string) : list string :=
  split_from (String.length s) sep s.

(** [s.replace(old, new)] where [old] is one character, the only way
    the mapper calls it. *)
Fixpoint replace (old : ascii) (new : string) (s : string) : string :=
  match s with
  | EmptyString => EmptyString
  | String c s' =>
      if decide (c = old) then new +:+ replace old new s'
      else String c (replace old new s')
  end.

Fixpoint lstrip (s : string) : string :=
  match s with
  | String c s' => if Ascii.is_space c then lstrip s' else s
  | EmptyString => EmptyString
  end.

Fixpoint rstrip (s : string) : string :=
  match s with
  | EmptyString => EmptyString
  | String c s' =>
      match rstrip s' with
      | EmptyString => if Ascii.is_space c then EmptyString else String c EmptyString
      | r => String c r
      end
  end.

(** [s.strip()] *)
Definition strip (s : string) : string := rstrip (lstrip s).

(** ['%03d' % n] for a natural number. *)
Definition fmt_03d (n : nat) : string :=
  let d := pretty n in
  String.concat EmptyString (replicate (3 - String.length d) "0") +:+ d.

Definition pipe : ascii := Ascii.ascii_of_nat 124.
Definition comma : ascii := Ascii.ascii_of_nat 44.
Definition amp : ascii := Ascii.ascii_of_nat 38.
Definition dquote : ascii := Ascii.ascii_of_nat 34.
Definition space : ascii := Ascii.ascii_of_nat 32.

End PyStr.

(** ** [Mapper.repare_projection] *)

Definition repare_projection (projection : string) : string :=
  PyStr.replace PyStr.amp (String PyStr.dquote EmptyString)
    (PyStr.replace PyStr.pipe "," projection).

(** The character-wise reading of the repair: pipe to comma, ampersand to
    double quote, anything else kept. *)
Definition repare_char (c : ascii) : ascii :=
  if decide (c = PyStr.pipe) then PyStr.comma
  else if decide (c = PyStr.amp) then PyStr.dquote
  else c.

Fixpoint map_string (f : ascii -> ascii) (s : string) : string :=
  match s with
  | EmptyString => EmptyString
  | String c s' => String (f c) (map_string f s')
  end.

Fixpoint occurs (c : ascii) (s : string) : bool :=
  match s with
  | EmptyString => false
  | String d s' => if decide (d = c) then true else occurs c s'
  end.

(** ** Exceptions *)

Inductive exn : Type :=
  | KeyError (key : string)
  | IndexError
  | ValueError (literal : string)
  | UnboundLocalError (name : string)
  | Unmodelled (expr : string).

Inductive result (A : Type) : Type :=
  | Ok (a : A)
  | Raise (e : exn).
Arguments Ok {A} a.
Arguments Raise {A} e.

#[global] Instance result_ret : MRet result := fun _ a => Ok a.
#[global] Instance result_bind : MBind result := fun _ _ f r =>
  match r with
  | Ok a => f a
  | Raise e => Raise e
  end.

(** ** Numbers

    A finite Python float is kept as the rational number it stands
    for, in lowest terms: the binary64 value nearest to the decimal
    literal, ties to even, infinite beyond the largest double. The two
    zeros are not told apart. *)

Inductive pyfloat : Type :=
  | Finite (q : Q)
  | Inf (negative : bool)
  | NaN.

Inductive pynum : Type :=
  | PyInt (z : Z)
  | PyFloat (f : pyfloat).

Module PyNum.

(** Leading decimal digits of [s]: their value on top of [acc], how
    many there are, and what follows them. *)
Fixpoint read_digits (acc : Z) (n : nat) (s : string) : Z * nat * string :=
  match s with
  | String c s' =>
      match Ascii.is_nat c with
      | Some d => read_digits (10 * acc + Z.of_nat d) (S n) s'
      | None => (acc, n, s)
      end
  | EmptyString => (acc, n, s)
  end.

(** An optional sign: [true] for minus. *)
Definition read_sign (s : string) : bool * string :=
  match s with
  | String "-" s' => (true, s')
  | String "+" s' => (false, s')
  | _ => (false, s)
  end.

Definition signed (negative : bool) (z : Z) : Z := if negative then - z else z.

(** [m * 10^e] as a reduced fraction. *)
Definition scale10 (m e : Z) : Q :=
  if decide (0 <= e) then Qred (Qmake (m * 10 ^ e) 1)
  else Qred (Qmake m (Z.to_pos (10 ^ (- e)))).

(** The integer nearest to [n / d], ties to even ([0 <= n], [0 < d]). *)
Definition round_half_even (n d : Z) : Z :=
  let q := n / d in
  let r := n mod d in
  if decide (2 * r < d) then q
  else if decide (d < 2 * r) then q + 1
  else if Z.even q then q else q + 1.

(** The integer part of the binary logarithm of [n / d] ([0 < n],
    [0 < d]). *)
Definition log2_ratio (n d : Z) : Z :=
  let l := Z.log2 n - Z.log2 d in
  if decide (d * 2 ^ Z.max l 0 <= n * 2 ^ Z.max (- l) 0) then l else l - 1.

(** Rounding to binary64: 53 bits of precision, exponents of the last
    bit from -1074 (subnormal numbers included) to 971, overflow to an
    infinity from 2^1024 on. *)
Definition binary64 (q : Q) : pyfloat :=
  let negative := bool_decide (Qnum q < 0) in
  let n := Z.abs (Qnum q) in
  let d := Zpos (Qden q) in
  if decide (n = 0) then Finite 0
  else
    let e := Z.max (log2_ratio n d - 52) (-1074) in
    let m := round_half_even (n * 2 ^ Z.max (- e) 0) (d * 2 ^ Z.max e 0) in
    if decide (0 <= e) then
      if decide (2 ^ 1024 <= m * 2 ^ e) then Inf negative
      else Finite (Qmake (signed negative (m * 2 ^ e)) 1)
    else Finite (Qred (Qmake (signed negative m) (Z.to_pos (2 ^ (- e))))).

Definition lower (c : ascii) : ascii :=
  let n := nat_of_ascii c in
  if decide (65 <= n <= 90)%nat then ascii_of_nat (n + 32) else c.

(** The unsigned decimal grammar: digits, an optional fraction, an
    optional exponent, at least one digit before the exponent, and
    nothing after. *)
Definition decimal (negative : bool) (s : string) : option pyfloat :=
  let '(m1, n1, s2) := read_digits 0 0 s in
  let '(m2, n2, s3) :=
    match s2 with
    | String "." r => read_digits m1 0 r
    | _ => (m1, 0%nat, s2)
    end in
  if decide (n1 + n2 = 0)%nat then None
  else
    match s3 with
    | EmptyString => Some (binary64 (scale10 (signed negative m2) (- Z.of_nat n2)))
    | String c r =>
        if decide (lower c = "e"%char) then
          let '(eneg, r1) := read_sign r in
          let '(e, ne, r2) := read_digits 0 0 r1 in
          if decide (ne = 0%nat) then None
          else match r2 with
               | EmptyString =>
                   Some (binary64 (scale10 (signed negative m2) (signed eneg e - Z.of_nat n2)))
               | _ => None
               end
        else None
    end.

(** [float(s)] on a string: [None] stands for the [ValueError]. *)
Definition float (s : string) : option pyfloat :=
  let '(negative, body) := read_sign (PyStr.strip s) in
  let name := map_string lower body in
  if decide (name = "inf" \/ name = "infinity") then Some (Inf negative)
  else if decide (name = "nan") then Some NaN
  else decimal negative body.

(** One element of a tuple literal: a decimal integer literal or a
    float literal, with an optional minus sign. *)
Definition number (s : string) : option pynum :=
  let '(negative, body) := read_sign (PyStr.strip s) in
  let '(m, n, rest) := read_digits 0 0 body in
  match rest with
  | EmptyString =>
      if decide (n = 0%nat) then None
      else if decide ((1 < n)%nat /\ PyStr.startswith "0" body = true) then None
      else Some (PyInt (signed negative m))
  | _ =>
      match decimal negative body with
      | Some f => Some (PyFloat f)
      | None => None
      end
  end.

Fixpoint numbers (items : list string) : option (list pynum) :=
  match items with
  | [] => Some []
  | x :: items' =>
      match number x, numbers items' with
      | Some v, Some vs => Some (v :: vs)
      | _, _ => None
      end
  end.

(** A string without line breaks. *)
Definition one_line (s : string) : bool :=
  negb (occurs (ascii_of_nat 10) s || occurs (ascii_of_nat 11) s ||
        occurs (ascii_of_nat 12) s || occurs (ascii_of_nat 13) s).

(** The items of a tuple display: what stands between the commas, a
    last empty item (a trailing comma) left out. Without a comma there
    is no tuple. *)
Definition tuple_items (body : string) : option (list string) :=
  let items := PyStr.split "," body in
  if decide (2 <= length items)%nat then
    match last items with
    | Some x =>
        match PyStr.strip x with
        | EmptyString => Some (take (length items - 1) items)
        | _ => Some items
        end
    | None => None
    end
  else None.

(** [eval(s)] on the strings the GeoTransform field is meant to hold: a
    comma-separated tuple of numbers, in parentheses or, on one line,
    without (the empty pair of parentheses is the empty tuple).
    Python's [eval] accepts any expression; a string outside this form
    is outside the model ([None]). *)
Definition eval_tuple (s : string) : option (list pynum) :=
  match PyStr.strip s with
  | String "(" body =>
      match PyStr.find ")" body with
      | Some i =>
          if decide (S i = String.length body) then
            match PyStr.strip (PyStr.take i body) with
            | EmptyString => Some []
            | _ =>
                match tuple_items (PyStr.take i body) with
                | Some items => numbers items
                | None => None
                end
            end
          else None
      | None => None
      end
  | line =>
      if one_line line then
        match tuple_items line with
        | Some items => numbers items
        | None => None
        end
      else None
  end.

End PyNum.

(** ** Data the raster engine hands over *)

(** A band of an opened dataset: [GetMetadata_Dict()] and [DataType]. *)
Record Band : Type := {
  GetMetadata_Dict : gmap string string;
  band_DataType : Z
}.

(** An opened (sub)dataset. [bands] lists [GetRasterBand(1)],
    [GetRasterBand(2)], ... so [RasterCount] is its length.
    [vrt_GeoTransform] is what [self.dataset.GetGeoTransform()] answers
    once the VRT has been created from this dataset ([VRT.__init__] is
    outside this file). A GDAL dataset answers six numbers, those of
    the identity transform (0, 1, 0, 0, 0, 1) when none was set; the
    mapper itself only looks at the length of the answer. *)
Record SubDataset : Type := {
  RasterXSize : Z;
  RasterYSize : Z;
  bands : list Band;
  GetProjection : string;
  GetGCPCount : Z;
  vrt_GeoTransform : list pyfloat
}.

(** [gdal.GCP(x, y, z, pixel, line)] *)
Record GCP : Type := {
  GCPX : pyfloat;
  GCPY : pyfloat;
  GCPZ : pyfloat;
  GCPPixel : pyfloat;
  GCPLine : pyfloat
}.

(** The [src] dictionary of a band: two keys are always there, the scale
    keys only when a non-empty value was found. *)
Record Src : Type := {
  SourceFilename : string;
  SourceBand : Z;
  ScaleRatio : option string;
  ScaleOffset : option string;
  DataType : Z
}.

Record BandDescriptor : Type := {
  src : Src;
  dst : gmap string string
}.

(** ** The container, seen through the calls made on it *)

Inductive call : Type :=
  | VRT_init (firstSubDataset : SubDataset) (srcMetadata : gmap string string)
  | create_bands (metaDict : list BandDescriptor)
  | SetProjection (wkt : string)
  | SetGCPs (gcps : list GCP) (projection : string)
  | remove_geotransform
  | add_geolocationArray (xDatasetSource yDatasetSource : string)
  | SetGeoTransform (geoTransform : list pynum).

(** Code that calls the container and may raise: the calls made so far
    stay made when an exception leaves the code. *)
Definition M (A : Type) : Type := list call -> result A * list call.

Definition ret_M {A} (a : A) : M A := fun tr => (Ok a, tr).
Definition raise_M {A} (e : exn) : M A := fun tr => (Raise e, tr).
Definition emit (c : call) : M unit := fun tr => (Ok tt, tr ++ [c]).
Definition bind_M {A B} (m : M A) (k : A -> M B) : M B := fun tr =>
  match m tr with
  | (Ok a, tr') => k a tr'
  | (Raise e, tr') => (Raise e, tr')
  end.
Definition lift {A} (r : result A) : M A := fun tr => (r, tr).

Notation "'let*' x ':=' m 'in' k" := (bind_M m (fun x => k))
  (at level 10, x name, m at level 100, k at level 200).
Notation "m ';;' k" := (bind_M m (fun _ => k))
  (at level 100, k at level 200, right associativity).

(** [d.get(key, default)] *)
Definition py_get (d : gmap string string) (key default : string) : string :=
  match d !! key with
  | Some v => v
  | None => default
  end.

(** [d[key]] on the input metadata: the association list is the
    dictionary in iteration order. *)
Fixpoint getitem (d : list (string * string)) (key : string) : option string :=
  match d with
  | [] => None
  | (k, v) :: d' => if decide (k = key) then Some v else getitem d' key
  end.

(** ** Metadata normalisation ([Mapper.__init__], first loop) *)

Definition NC_GLOBAL_GDAL : string := "NC_GLOBAL#GDAL_".
Definition NC_GLOBAL_GDAL_NANSAT : string := "NC_GLOBAL#GDAL_NANSAT_".

(** One turn of the loop over [gdalMetadata.keys()]. The body sits in a
    [try] whose handler is [continue]: what was stored before a failing
    subscript stays stored. *)
Definition normalize_key (gdalMetadata : list (string * string))
    (st : gmap string string * gmap string string) (key : string)
  : gmap string string * gmap string string :=
  let '(tmp, geoMetadata) := st in
  match getitem gdalMetadata key, PyStr.split NC_GLOBAL_GDAL key !! 1%nat with
  | Some value, Some k1 =>
      let tmp1 := <[k1 := value]> tmp in
      if PyStr.contains "NANSAT" key then
        match PyStr.split NC_GLOBAL_GDAL_NANSAT key !! 1%nat with
        | Some k2 => (delete k1 tmp1, <[k2 := value]> geoMetadata)
        | None => (tmp1, geoMetadata)
        end
      else (tmp1, geoMetadata)
  | _, _ => (tmp, geoMetadata)
  end.

(** The pair (new [gdalMetadata], [geoMetadata]). *)
Definition normalize (gdalMetadata : list (string * string))
  : gmap string string * gmap string string :=
  foldl (normalize_key gdalMetadata) (∅, ∅) (gdalMetadata.*1).

(** ** Band descriptors ([Mapper.__init__], inner loop) *)

Definition rmMetadatas : list string :=
  ["NETCDF_VARNAME"; "_FillValue"; "_Unsigned"; "ScaleRatio"; "ScaleOffset"; "dods_variable"].

Definition nonempty (s : string) : option string :=
  match s with
  | EmptyString => None
  | _ => Some s
  end.

(** [if key in d: d.pop(key)] *)
Definition pop_if_in (d : gmap string string) (key : string) : gmap string string :=
  match d !! key with
  | Some _ => delete key d
  | None => d
  end.

(** The descriptor of band [iBand] (counted from 0) of [fileName].
    [dst] and [bandMetadata] name the same dictionary in the source, so
    one map is threaded through the assignments. *)
Definition band_descriptor (fileName : string) (iBand : nat) (subBand : Band)
  : BandDescriptor :=
  let bandMetadata := pop_if_in (GetMetadata_Dict subBand) "PixelFunctionType" in
  let sourceBands := Z.of_nat iBand + 1 in
  let scaleRatio :=
    py_get bandMetadata "ScaleRatio"
      (py_get bandMetadata "scale" (py_get bandMetadata "scale_factor" "")) in
  let scaleOffset :=
    py_get bandMetadata "ScaleOffset"
      (py_get bandMetadata "offset" (py_get bandMetadata "add_offset" "")) in
  let src :=
    {| SourceFilename := fileName;
       SourceBand := sourceBands;
       ScaleRatio := nonempty scaleRatio;
       ScaleOffset := nonempty scaleOffset;
       DataType := band_DataType subBand |} in
  let dst1 := <["wkv" := py_get bandMetadata "standard_name" ""]> bandMetadata in
  let bandName :=
    match py_get dst1 "NETCDF_VARNAME" "" with
    | EmptyString => py_get dst1 "dods_variable" ""
    | n => n
    end in
  let dst2 :=
    match bandName with
    | EmptyString => dst1
    | _ => <["name" := bandName]> dst1
    end in
  {| src := src; dst := foldl pop_if_in dst2 rmMetadatas |}.

Definition band_descriptors (fileName : string) (subDataset : SubDataset)
  : list BandDescriptor :=
  imap (band_descriptor fileName) (bands subDataset).

(** ** Reference grid and geolocation sources ([Mapper.__init__], main loop) *)

(** The local variables of the loop. [firstSubDataset] and [projection]
    have no value until the first dataset with a grid is met. *)
Record locals : Type := {
  firstXSize : Z;
  firstYSize : Z;
  firstSubDataset : option SubDataset;
  projection : option string;
  xDatasetSource : string;
  yDatasetSource : string;
  metaDict : list BandDescriptor
}.

Definition locals0 : locals :=
  {| firstXSize := 0; firstYSize := 0; firstSubDataset := None; projection := None;
     xDatasetSource := ""; yDatasetSource := ""; metaDict := [] |}.

Definition is_x_name (fileName : string) : bool :=
  PyStr.contains "GEOLOCATION_X_DATASET" fileName || PyStr.contains "longitude" fileName.

Definition is_y_name (fileName : string) : bool :=
  PyStr.contains "GEOLOCATION_Y_DATASET" fileName || PyStr.contains "latitude" fileName.

Section Engine.

(** [gdal.Open]: the raster engine, outside this file. *)
Variable gdal_Open : string -> SubDataset.

(** [latlongSRS.ExportToWkt()]: the WGS84 text, from [nansat_tools]. *)
Variable latlongSRS_wkt : string.

(** The first [if] of the loop body. *)
Definition choose_first (st : locals) (subDataset : SubDataset) : locals :=
  if decide (firstXSize st = 0 /\ firstYSize st = 0 /\
             RasterXSize subDataset > 1 /\ RasterYSize subDataset > 1)
  then {| firstXSize := RasterXSize subDataset;
          firstYSize := RasterYSize subDataset;
          firstSubDataset := Some subDataset;
          projection := Some (GetProjection subDataset);
          xDatasetSource := xDatasetSource st;
          yDatasetSource := yDatasetSource st;
          metaDict := metaDict st |}
  else st.

(** The second [if] of the loop body. *)
Definition classify (st : locals) (fileName : string) (subDataset : SubDataset) : locals :=
  if decide (RasterXSize subDataset = firstXSize st /\
             RasterYSize subDataset = firstYSize st)
  then
    if is_x_name fileName then
      {| firstXSize := firstXSize st; firstYSize := firstYSize st;
         firstSubDataset := firstSubDataset st; projection := projection st;
         xDatasetSource := fileName;
         yDatasetSource := yDatasetSource st;
         metaDict := metaDict st |}
    else if is_y_name fileName then
      {| firstXSize := firstXSize st; firstYSize := firstYSize st;
         firstSubDataset := firstSubDataset st; projection := projection st;
         xDatasetSource := xDatasetSource st;
         yDatasetSource := fileName;
         metaDict := metaDict st |}
    else
      {| firstXSize := firstXSize st; firstYSize := firstYSize st;
         firstSubDataset := firstSubDataset st; projection := projection st;
         xDatasetSource := xDatasetSource st;
         yDatasetSource := yDatasetSource st;
         metaDict := metaDict st ++ band_descriptors fileName subDataset |}
  else st.

Definition loop_body (st : locals) (fileName : string) : locals :=
  let subDataset := gdal_Open fileName in
  classify (choose_first st subDataset) fileName subDataset.

Definition scan (fileNames : list string) : locals :=
  foldl loop_body locals0 fileNames.

(** ** [Mapper.add_gcps_from_metadata] *)

Definition gcpNames : list string := ["GCPPixel"; "GCPLine"; "GCPX"; "GCPY"].

(** How many keys of [geoMetadata] contain [gcpName]. *)
Definition gcpLineCount (geoMetadata : gmap string string) (gcpName : string) : nat :=
  length (filter (fun metaDataItem => PyStr.contains gcpName metaDataItem = true)
                 (map_to_list geoMetadata).*1).

(** ['%s_%03d' % (gcpName, n)] *)
Definition gcpLineName (gcpName : string) (n : nat) : string :=
  gcpName +:+ "_" +:+ PyStr.fmt_03d n.

(** The loop [for n in range(0, gcpLineCount)], over the indices still
    to visit, with the string built so far. *)
Fixpoint concat_lines (geoMetadata : gmap string string) (gcpName : string)
    (indices : list nat) (gcpString : string) : result string :=
  match indices with
  | [] => Ok gcpString
  | n :: indices' =>
      match geoMetadata !! gcpLineName gcpName n with
      | Some line => concat_lines geoMetadata gcpName indices' (gcpString +:+ line)
      | None => Raise (KeyError (gcpLineName gcpName n))
      end
  end.

Definition gcp_string (geoMetadata : gmap string string) (gcpName : string)
  : result string :=
  concat_lines geoMetadata gcpName (seq 0 (gcpLineCount geoMetadata gcpName)) "".

(** [gcpString.strip().replace(' ','').split('|')] *)
Definition gcp_tokens (gcpString : string) : list string :=
  PyStr.split "|" (PyStr.replace PyStr.space "" (PyStr.strip gcpString)).

(** The loop [for x in ...: if len(x) > 0: gcpValues.append(float(x))] *)
Fixpoint parse_values (tokens : list string) : result (list pyfloat) :=
  match tokens with
  | [] => Ok []
  | x :: tokens' =>
      match x with
      | EmptyString => parse_values tokens'
      | _ =>
          match PyNum.float x with
          | Some v => vs ← parse_values tokens'; Ok (v :: vs)
          | None => Raise (ValueError x)
          end
      end
  end.

(** One turn of the loop over [gcpNames]. *)
Definition gcp_series (geoMetadata : gmap string string) (gcpName : string)
  : result (list pyfloat) :=
  gcpString ← gcp_string geoMetadata gcpName;
  parse_values (gcp_tokens gcpString).

Fixpoint all_series (geoMetadata : gmap string string) (names : list string)
  : result (list (list pyfloat)) :=
  match names with
  | [] => Ok []
  | gcpName :: names' =>
      gcpValues ← gcp_series geoMetadata gcpName;
      rest ← all_series geoMetadata names';
      Ok (gcpValues :: rest)
  end.

(** [l[i][j]] on a list of lists. *)
Definition item2 (l : list (list pyfloat)) (i j : nat) : result pyfloat :=
  match l !! i with
  | Some row => match row !! j with Some v => Ok v | None => Raise IndexError end
  | None => Raise IndexError
  end.

(** The loop [for i in range(0, len(gcpAllValues[0]))]. *)
Fixpoint build_gcps (gcpAllValues : list (list pyfloat)) (indices : list nat)
  : result (list GCP) :=
  match indices with
  | [] => Ok []
  | i :: indices' =>
      x ← item2 gcpAllValues 2 i;
      y ← item2 gcpAllValues 3 i;
      pixel ← item2 gcpAllValues 0 i;
      line ← item2 gcpAllValues 1 i;
      gcps ← build_gcps gcpAllValues indices';
      Ok ({| GCPX := x; GCPY := y; GCPZ := Finite 0; GCPPixel := pixel; GCPLine := line |}
            :: gcps)
  end.

Definition parse_gcps (geoMetadata : gmap string string) : result (list GCP) :=
  gcpAllValues ← all_series geoMetadata gcpNames;
  match gcpAllValues !! 0%nat with
  | Some first => build_gcps gcpAllValues (seq 0 (length first))
  | None => Raise IndexError
  end.

Definition add_gcps_from_metadata (geoMetadata : gmap string string) : M Z :=
  let* gcps := lift (parse_gcps geoMetadata) in
  (if decide (0 < length gcps)%nat then
     emit (SetGCPs gcps (repare_projection (py_get geoMetadata "GCPProjection" "")));;
     emit remove_geotransform
   else ret_M tt);;
  ret_M (Z.of_nat (length gcps)).

(** ** [Mapper.__init__] *)

(** Reading a local variable that may not have been assigned. *)
Definition read_local {A} (name : string) (v : option A) : M A :=
  match v with
  | Some a => ret_M a
  | None => raise_M (UnboundLocalError name)
  end.

(** [fileNames], from [GetSubDatasets()] or the file itself. *)
Definition fileNames_of (fileName : string) (subDatasets : list (string * string))
  : list string :=
  match subDatasets with
  | [] => [fileName]
  | _ => subDatasets.*1
  end.

(** The projection handed to [SetProjection], before the repair. *)
Definition choose_projection (geoMetadata : gmap string string) (projection : string)
  : string :=
  let projection1 :=
    match projection with
    | EmptyString => py_get geoMetadata "GCPProjection" ""
    | _ => projection
    end in
  match projection1 with
  | EmptyString => latlongSRS_wkt
  | _ => projection1
  end.

(** The end of [__init__], from [gcpCount = firstSubDataset.GetGCPCount()]
    on: which geolocation model goes into the container. *)
Definition resolve_geolocation (first : SubDataset)
    (xDatasetSource yDatasetSource : string) (geoMetadata : gmap string string)
  : M unit :=
  let* gcpCount :=
    (if decide (GetGCPCount first = 0) then add_gcps_from_metadata geoMetadata
     else ret_M (GetGCPCount first)) in
  if decide (0 < String.length xDatasetSource /\ 0 < String.length yDatasetSource)%nat
  then emit (add_geolocationArray xDatasetSource yDatasetSource)
  else if decide (gcpCount = 0) then
    if decide (length (vrt_GeoTransform first) = 0)%nat then
      let geoTransformStr := py_get geoMetadata "GeoTransform" "(0|1|0|0|0|0|1)" in
      let expr := PyStr.replace PyStr.pipe "," geoTransformStr in
      match PyNum.eval_tuple expr with
      | Some geoTransform => emit (SetGeoTransform geoTransform)
      | None => raise_M (Unmodelled expr)
      end
    else ret_M tt
  else ret_M tt.

Definition Mapper_init (fileName : string) (subDatasets : list (string * string))
    (gdalMetadata : list (string * string)) : M unit :=
  let '(tmp, geoMetadata) := normalize gdalMetadata in
  let st := scan (fileNames_of fileName subDatasets) in
  let* first := read_local "firstSubDataset" (firstSubDataset st) in
  emit (VRT_init first tmp);;
  emit (create_bands (metaDict st));;
  let* projection0 := read_local "projection" (projection st) in
  emit (SetProjection (repare_projection (choose_projection geoMetadata projection0)));;
  resolve_geolocation first (xDatasetSource st) (yDatasetSource st) geoMetadata.

End Engine.

(** ** Reading aids

    Closed forms the statements below compare the loops with. *)

(** The points built from four series, position by position, as long as
    all four have a value. *)
Fixpoint gcp_rows (pixel line x y : list pyfloat) : list GCP :=
  match pixel, line, x, y with
  | p :: pixel', l :: line', x0 :: x', y0 :: y' =>
      {| GCPX := x0; GCPY := y0; GCPZ := Finite 0; GCPPixel := p; GCPLine := l |}
        :: gcp_rows pixel' line' x' y'
  | _, _, _, _ => []
  end.

(** The values of the entries [gcpName_000] ... one after the other. *)
Definition joined_lines (geoMetadata : gmap string string) (gcpName : string)
    (count : nat) : string :=
  String.concat "" ((fun n => py_get geoMetadata (gcpLineName gcpName n) "") <$> seq 0 count).

(** The test the normalisation makes on a raw key: the literal occurs
    in it, at its start or further inside, which is when
    [key.split(...)[1]] exists. *)
Definition contains_literal (key : string) : Prop :=
  PyStr.contains NC_GLOBAL_GDAL key = true.

#[global] Instance contains_literal_dec (key : string) : Decision (contains_literal key) :=
  decide (PyStr.contains NC_GLOBAL_GDAL key = true).

(** The narrower test of a prefix: the key starts with the literal. *)
Definition has_prefix (key : string) : Prop :=
  PyStr.startswith NC_GLOBAL_GDAL key = true.

(** Where an entry of the normalised mapping comes from. *)
Definition from_key_with_literal (d : list (string * string)) (k v : string) : Prop :=
  exists key, key ∈ d.*1 /\ contains_literal key /\
              PyStr.split NC_GLOBAL_GDAL key !! 1%nat = Some k /\
              getitem d key = Some v.

(** A dataset with a grid: both sizes above 1. *)
Definition has_grid (subDataset : SubDataset) : Prop :=
  RasterXSize subDataset > 1 /\ RasterYSize subDataset > 1.

#[global] Instance has_grid_dec (subDataset : SubDataset) : Decision (has_grid subDataset) :=
  decide (RasterXSize subDataset > 1 /\ RasterYSize subDataset > 1).

(** The sizes of [subDataset] are those of [ref]. *)
Definition same_size (ref subDataset : SubDataset) : Prop :=
  RasterXSize subDataset = RasterXSize ref /\ RasterYSize subDataset = RasterYSize ref.

#[global] Instance same_size_dec (ref subDataset : SubDataset) :
  Decision (same_size ref subDataset) :=
  decide (RasterXSize subDataset = RasterXSize ref /\
          RasterYSize subDataset = RasterYSize ref).

(** The file names with a grid, those that are X sources for the
    reference [ref], and those that are Y sources for it (the Y test
    comes second in the source: a name with both patterns is an X name). *)
Definition grid_names (gdal_Open : string -> SubDataset) (fileNames : list string)
  : list string :=
  filter (fun f => has_grid (gdal_Open f)) fileNames.

Definition x_matches (gdal_Open : string -> SubDataset) (ref : SubDataset)
    (fileNames : list string) : list string :=
  filter (fun f => same_size ref (gdal_Open f) /\ is_x_name f = true) fileNames.

Definition y_matches (gdal_Open : string -> SubDataset) (ref : SubDataset)
    (fileNames : list string) : list string :=
  filter (fun f => same_size ref (gdal_Open f) /\ is_x_name f = false /\
                   is_y_name f = true) fileNames.

(** * Sample inputs *)

Module Sample.

(** The four series of the worked example of the specification. *)
Definition gcp_two_points : gmap string string :=
  <["GCPPixel_000" := "1|2"]> (<["GCPLine_000" := "1|2"]>
    (<["GCPX_000" := "10.0|20.0"]> (<["GCPY_000" := "5.0|6.0"]> ∅))).

Definition point1 : GCP :=
  {| GCPX := Finite 10; GCPY := Finite 5; GCPZ := Finite 0;
     GCPPixel := Finite 1; GCPLine := Finite 1 |}.

Definition point2 : GCP :=
  {| GCPX := Finite 20; GCPY := Finite 6; GCPZ := Finite 0;
     GCPPixel := Finite 2; GCPLine := Finite 2 |}.

(** Two pixel values against one line value. *)
Definition gcp_short_line : gmap string string :=
  <["GCPPixel_000" := "1|2"]> (<["GCPLine_000" := "1"]>
    (<["GCPX_000" := "10.0|20.0"]> (<["GCPY_000" := "5.0|6.0"]> ∅))).

(** One pixel value against two values in the other series. *)
Definition gcp_short_pixel : gmap string string :=
  <["GCPPixel_000" := "1"]> (<["GCPLine_000" := "1|2"]>
    (<["GCPX_000" := "10.0|20.0"]> (<["GCPY_000" := "5.0|6.0"]> ∅))).

(** A token that is not a number. *)
Definition gcp_bad_token : gmap string string :=
  <["GCPPixel_000" := "1|x"]> (<["GCPLine_000" := "1|2"]>
    (<["GCPX_000" := "10.0|20.0"]> (<["GCPY_000" := "5.0|6.0"]> ∅))).

(** A series whose only entry carries the suffix _001. *)
Definition gcp_gap : gmap string string := <["GCPX_001" := "10.0"]> ∅.

(** A complete series next to a key that only contains its name. *)
Definition gcp_stray_key : gmap string string :=
  <["GCPX_000" := "10.0"]> (<["MY_GCPX_NOTE" := "n"]> ∅).

Definition plain_band : Band := {| GetMetadata_Dict := ∅; band_DataType := 6 |}.

(** A 10 x 10 dataset with one band and [g] native GCPs, for which the
    container reports no geotransform. *)
Definition grid (g : Z) : SubDataset :=
  {| RasterXSize := 10; RasterYSize := 10; bands := [plain_band];
     GetProjection := ""; GetGCPCount := g; vrt_GeoTransform := [] |}.

(** A dataset one pixel wide. *)
Definition column : SubDataset :=
  {| RasterXSize := 1; RasterYSize := 10; bands := [plain_band];
     GetProjection := ""; GetGCPCount := 0; vrt_GeoTransform := [] |}.

Definition wgs84 : string := "GEOGCS[WGS 84]".

(** Raw metadata: one key outside the namespace, one plain key of the
    namespace and one key of the geolocation namespace. *)
Definition raw_metadata : list (string * string) :=
  [("history", "h"); ("NC_GLOBAL#GDAL_title", "t");
   ("NC_GLOBAL#GDAL_NANSAT_GCPX_000", "10.0")].

(** Two names with the X pattern, two with the Y pattern, the last of
    which has both. *)
Definition several_sources : list string :=
  ["data"; "longitude"; "GEOLOCATION_X_DATASET:lon2"; "latitude"; "latitude_longitude"].

(** The seven numbers the default GeoTransform string evaluates to,
    and the six of the identity transform. *)
Definition seven : list pynum :=
  [PyInt 0; PyInt 1; PyInt 0; PyInt 0; PyInt 0; PyInt 0; PyInt 1].

Definition identity6 : list pynum :=
  [PyInt 0; PyInt 1; PyInt 0; PyInt 0; PyInt 0; PyInt 1].

(** A raw key in which the literal stands after three other
    characters. *)
Definition inner_literal : list (string * string) :=
  [("abcNC_GLOBAL#GDAL_mid", "m")].


Definition with_lon_lat : list (string * string) :=
  [("data", "d"); ("longitude", "x"); ("latitude", "y")].

End Sample.


(** * Sample inputs for the band descriptors *)

Module SampleBand.

(** An empty ScaleRatio next to a scale_factor, a netCDF variable name,
    a standard name and a pixel-function marker. *)
Definition sst : Band :=
  {| GetMetadata_Dict :=
       <["ScaleRatio" := ""]> (<["scale_factor" := "0.01"]>
         (<["add_offset" := "273.15"]> (<["NETCDF_VARNAME" := "sst"]>
           (<["standard_name" := "sea_surface_temperature"]>
             (<["PixelFunctionType" := "f"]> (<["units" := "K"]> ∅))))));
     band_DataType := 2 |}.

(** A band that only has the key name. *)
Definition named : Band :=
  {| GetMetadata_Dict := <["name" := "raw"]> ∅; band_DataType := 1 |}.

End SampleBand.

(** * Reading aids for the further properties *)

(** The files that give band descriptors for the reference [ref]: of
    its size, with neither an X nor a Y name. *)
Definition data_names (gdal_Open : string -> SubDataset) (ref : SubDataset)
    (fileNames : list string) : list string :=
  filter (fun f => same_size ref (gdal_Open f) /\ is_x_name f = false /\
                   is_y_name f = false) fileNames.

(** A dataset of size 0 x 0. *)
Definition zero_size (subDataset : SubDataset) : Prop :=
  RasterXSize subDataset = 0 /\ RasterYSize subDataset = 0.

(** The calls that install a geolocation model. *)
Definition geolocation_call (c : call) : bool :=
  match c with
  | SetGCPs _ _ | remove_geotransform | add_geolocationArray _ _ | SetGeoTransform _ => true
  | _ => false
  end.

Definition is_SetGCPs (c : call) : bool :=
  match c with SetGCPs _ _ => true | _ => false end.

Definition is_SetGeoTransform (c : call) : bool :=
  match c with SetGeoTransform _ => true | _ => false end.

Definition is_add_geolocationArray (c : call) : bool :=
  match c with add_geolocationArray _ _ => true | _ => false end.

Module SampleGrid.

(** A 10 x 10 dataset with two bands, a 5 x 5 one and a 10 x 10 one with
    one band. *)
Definition open (f : string) : SubDataset :=
  if decide (f = "small") then
    {| RasterXSize := 5; RasterYSize := 5; bands := [Sample.plain_band];
       GetProjection := ""; GetGCPCount := 0; vrt_GeoTransform := [] |}
  else if decide (f = "first") then
    {| RasterXSize := 10; RasterYSize := 10;
       bands := [Sample.plain_band; SampleBand.named];
       GetProjection := ""; GetGCPCount := 0; vrt_GeoTransform := [] |}
  else Sample.grid 0.

Definition names : list string := ["first"; "small"; "longitude"; "other"].

End SampleGrid.

Definition is_SetProjection (c : call) : bool :=
  match c with SetProjection _ => true | _ => false end.

(** The five sequences of geolocation calls the end of [__init__] can
    make. *)
Definition geolocation_shape (xs ys : string) (calls : list call) : Prop :=
  calls = [] \/
  calls = [add_geolocationArray xs ys] \/
  (exists t, calls = [SetGeoTransform t]) \/
  (exists gcps p, gcps <> [] /\ calls = [SetGCPs gcps p; remove_geotransform]) \/
  (exists gcps p, gcps <> [] /\
                  calls = [SetGCPs gcps p; remove_geotransform; add_geolocationArray xs ys]).

Module SampleInit.

(** Metadata with the four series of [Sample.gcp_two_points] and a
    projection for them, under their raw keys. *)
Definition gcp_metadata : list (string * string) :=
  [("NC_GLOBAL#GDAL_NANSAT_GCPPixel_000", "1|2");
   ("NC_GLOBAL#GDAL_NANSAT_GCPLine_000", "1|2");
   ("NC_GLOBAL#GDAL_NANSAT_GCPX_000", "10.0|20.0");
   ("NC_GLOBAL#GDAL_NANSAT_GCPY_000", "5.0|6.0");
   ("NC_GLOBAL#GDAL_NANSAT_GCPProjection", "GEOGCS[&WGS 84&|DATUM]")].

(** Metadata whose pixel series has a token that is not a number. *)
Definition bad_metadata : list (string * string) :=
  [("NC_GLOBAL#GDAL_NANSAT_GCPPixel_000", "1|x")].

(** A 10 x 10 dataset with a native projection and a geotransform. *)
Definition projected : SubDataset :=
  {| RasterXSize := 10; RasterYSize := 10; bands := [Sample.plain_band];
     GetProjection := "PROJCS[native]"; GetGCPCount := 0;
     vrt_GeoTransform := [Finite 0; Finite 1; Finite 0; Finite 0; Finite 0; Finite 1] |}.

End SampleInit.

(** A raw key whose entry moves to the geolocation mapping: NANSAT
    occurs in it and [key.split('NC_GLOBAL#GDAL_NANSAT_')[1]] exists. *)
Definition is_geo_key (key : string) : Prop :=
  PyStr.contains "NANSAT" key = true /\
  is_Some (PyStr.split NC_GLOBAL_GDAL_NANSAT key !! 1%nat).

(** The entries of [g] under keys that start with [prefix], as a raw
    dictionary. *)
Definition prefixed (prefix : string) (g : gmap string string) : list (string * string) :=
  (fun kv => (prefix +:+ kv.1, kv.2)) <$> map_to_list g.

Module SampleMeta.

Definition plain : gmap string string :=
  <["title" := "t"]> (<["history" := "h"]> ∅).

Definition geo : gmap string string :=
  <["GCPX_000" := "10.0"]> (<["GeoTransform" := "(0|1|0|0|0|1)"]> ∅).

End SampleMeta.
(** * Properties *)

(** ** Python strings *)

Lemma drop_length (n : nat) (s : string) :
  String.length (PyStr.drop n s) = (String.length s - n)%nat.
Proof.
  revert s. induction n as [|n IH]; intros s; [cbn; lia|].
  destruct s as [|c s]; [reflexivity|]. cbn. apply IH.
Qed.

Lemma find_empty (sep : string) : sep <> "" -> PyStr.find sep "" = None.
Proof. destruct sep; [done|reflexivity]. Qed.

(** The number of cuts allowed to [split] is never reached before the
    string is used up: any larger allowance gives the same pieces. *)
Lemma split_from_enough (sep : string) (n m : nat) (s : string) :
  sep <> "" -> (String.length s <= n)%nat -> (String.length s <= m)%nat ->
  PyStr.split_from n sep s = PyStr.split_from m sep s.
Proof.
  intros Hsep. revert m s. induction n as [|n IH]; intros m s Hn Hm.
  - destruct s as [|c s]; [|cbn in Hn; lia].
    destruct m as [|m]; [reflexivity|]. cbn [PyStr.split_from].
    by rewrite find_empty.
  - destruct m as [|m].
    + destruct s as [|c s]; [|cbn in Hm; lia]. cbn [PyStr.split_from].
      by rewrite find_empty.
    + cbn [PyStr.split_from]. destruct (PyStr.find sep s) as [i|]; [|reflexivity].
      f_equal. assert (0 < String.length sep)%nat by (destruct sep; [done|cbn; lia]).
      apply IH; rewrite drop_length; lia.
Qed.

Lemma split_unfold (sep s : string) :
  sep <> "" ->
  PyStr.split sep s =
  match PyStr.find sep s with
  | None => [s]
  | Some i => PyStr.take i s :: PyStr.split sep (PyStr.drop (i + String.length sep) s)
  end.
Proof.
  intros Hsep. unfold PyStr.split. destruct s as [|c s].
  - cbn [String.length PyStr.split_from]. by rewrite find_empty.
  - cbn [String.length PyStr.split_from].
    destruct (PyStr.find sep (String c s)) as [i|]; [|reflexivity].
    f_equal. assert (0 < String.length sep)%nat by (destruct sep; [done|cbn; lia]).
    apply split_from_enough; [done| |lia].
    rewrite drop_length. cbn [String.length]. lia.
Qed.

(** ** Projection repair *)

Lemma repare_projection_cons (c : ascii) (s : string) :
  repare_projection (String c s) = String (repare_char c) (repare_projection s).
Proof.
  unfold repare_projection, repare_char. cbn [PyStr.replace].
  destruct (decide (c = PyStr.pipe)) as [->|Hp].
  - reflexivity.
  - cbn [PyStr.replace].
    destruct (decide (c = PyStr.amp)) as [->|Ha]; reflexivity.
Qed.

Lemma repare_projection_map (s : string) :
  repare_projection s = map_string repare_char s.
Proof.
  induction s as [|c s IH]; [reflexivity|].
  rewrite repare_projection_cons, IH. reflexivity.
Qed.

Lemma map_string_fixed (f : ascii -> ascii) (s : string) :
  (forall c, occurs c s = true -> f c = c) -> map_string f s = s.
Proof.
  induction s as [|d s IH]; intros Hf; [reflexivity|].
  cbn. rewrite Hf, IH; [reflexivity| |].
  - intros c Hc. apply Hf. cbn. by destruct (decide (d = c)).
  - cbn. by rewrite decide_True.
Qed.

(** C8. The repair replaces every pipe by a comma and every ampersand by
    a double quote, character by character, and changes nothing else: on
    the string A|B&C it gives A,B followed by a double quote and C, and a
    string holding neither a pipe nor an ampersand comes back unchanged. *)
Theorem repare_projection_pure :
  (forall s, repare_projection s = map_string repare_char s) /\
  repare_projection "A|B&C"
    = String "A" (String "," (String "B" (String PyStr.dquote "C"))) /\
  (forall s, occurs PyStr.pipe s = false -> occurs PyStr.amp s = false ->
             repare_projection s = s).
Proof.
  split; [exact repare_projection_map|]. split; [reflexivity|].
  intros s Hp Ha. rewrite repare_projection_map. apply map_string_fixed.
  intros c Hc. unfold repare_char.
  destruct (decide (c = PyStr.pipe)) as [->|_]; [congruence|].
  destruct (decide (c = PyStr.amp)) as [->|_]; [congruence|reflexivity].
Qed.

Lemma repare_projection_pure_witness :
  repare_projection Sample.wgs84 = Sample.wgs84.
Proof.
  apply (proj2 (proj2 repare_projection_pure) Sample.wgs84); reflexivity.
Defined.

(** ** Ground-control points from the metadata *)

(** What [add_gcps_from_metadata] does, by the outcome of the parsing. *)
Lemma add_gcps_from_metadata_cases (geoMetadata : gmap string string) (tr : list call) :
  add_gcps_from_metadata geoMetadata tr =
  match parse_gcps geoMetadata with
  | Raise e => (Raise e, tr)
  | Ok [] => (Ok 0, tr)
  | Ok gcps =>
      (Ok (Z.of_nat (length gcps)),
       tr ++ [SetGCPs gcps (repare_projection (py_get geoMetadata "GCPProjection" ""));
              remove_geotransform])
  end.
Proof.
  unfold add_gcps_from_metadata, bind_M, lift.
  destruct (parse_gcps geoMetadata) as [[|g gcps]|e]; [reflexivity| |reflexivity].
  rewrite decide_True by (cbn; lia).
  unfold emit, ret_M. by rewrite <- (assoc_L (++)).
Qed.

(** C7. The four series 1|2, 1|2, 10.0|20.0 and 5.0|6.0 give two points,
    (pixel 1, line 1, x 10, y 5, z 0) then (pixel 2, line 2, x 20, y 6,
    z 0); they are handed to the container in that order and the count
    returned is 2. *)
Theorem gcp_two_points_parsed :
  parse_gcps Sample.gcp_two_points = Ok [Sample.point1; Sample.point2] /\
  forall tr,
    add_gcps_from_metadata Sample.gcp_two_points tr
    = (Ok 2, tr ++ [SetGCPs [Sample.point1; Sample.point2] ""; remove_geotransform]).
Proof.
  assert (H : parse_gcps Sample.gcp_two_points = Ok [Sample.point1; Sample.point2])
    by (vm_compute; reflexivity).
  split; [exact H|]. intros tr.
  rewrite add_gcps_from_metadata_cases, H. reflexivity.
Qed.

(** *** Assembling a series *)

Lemma string_app_cons (ch : ascii) (a b : string) :
  String ch a +:+ b = String ch (a +:+ b).
Proof. reflexivity. Qed.

Lemma string_app_assoc (a b c : string) : (a +:+ b) +:+ c = a +:+ (b +:+ c).
Proof.
  induction a as [|ch a IH]; [reflexivity|].
  rewrite !string_app_cons. f_equal. exact IH.
Qed.

Lemma string_app_nil_r (s : string) : s +:+ "" = s.
Proof.
  induction s as [|ch s IH]; [reflexivity|].
  rewrite string_app_cons. f_equal. exact IH.
Qed.

Lemma string_concat_cons (x : string) (l : list string) :
  String.concat "" (x :: l) = x +:+ String.concat "" l.
Proof.
  destruct l as [|y l]; [|reflexivity].
  change (String.concat "" [x]) with x. by rewrite string_app_nil_r.
Qed.

Lemma concat_lines_present (md : gmap string string) (name : string)
    (indices : list nat) (acc : string) :
  (forall n, n ∈ indices -> is_Some (md !! gcpLineName name n)) ->
  concat_lines md name indices acc
  = Ok (acc +:+ String.concat "" ((fun n => py_get md (gcpLineName name n) "") <$> indices)).
Proof.
  revert acc. induction indices as [|n indices IH]; intros acc Hall.
  - cbn. by rewrite string_app_nil_r.
  - destruct (Hall n) as [v Hv]; [left|].
    cbn [concat_lines]. rewrite Hv, IH by (intros m Hm; apply Hall; by right).
    rewrite fmap_cons, string_concat_cons, string_app_assoc.
    unfold py_get at 2. by rewrite Hv.
Qed.

Lemma concat_lines_missing (md : gmap string string) (name : string)
    (before : list nat) (n : nat) (after : list nat) (acc : string) :
  (forall m, m ∈ before -> is_Some (md !! gcpLineName name m)) ->
  md !! gcpLineName name n = None ->
  concat_lines md name (before ++ n :: after) acc = Raise (KeyError (gcpLineName name n)).
Proof.
  revert acc. induction before as [|m before IH]; intros acc Hall Hn.
  - cbn. by rewrite Hn.
  - destruct (Hall m) as [v Hv]; [left|].
    cbn [app concat_lines]. rewrite Hv. apply IH; [|done].
    intros k Hk. apply Hall. by right.
Qed.

Lemma concat_lines_raises (md : gmap string string) (name : string)
    (indices : list nat) (acc : string) (e : exn) :
  concat_lines md name indices acc = Raise e -> exists k, e = KeyError k.
Proof.
  revert acc. induction indices as [|n indices IH]; intros acc; cbn; [done|].
  destruct (md !! gcpLineName name n); [apply IH|].
  intros [= <-]. eauto.
Qed.

Lemma gcp_string_present (md : gmap string string) (name : string) :
  (forall n, (n < gcpLineCount md name)%nat -> is_Some (md !! gcpLineName name n)) ->
  gcp_string md name = Ok (joined_lines md name (gcpLineCount md name)).
Proof.
  intros Hall. unfold gcp_string, joined_lines.
  rewrite concat_lines_present; [reflexivity|].
  intros n Hn. apply Hall. apply elem_of_seq in Hn. lia.
Qed.

Lemma gcp_string_missing (md : gmap string string) (name : string) (n : nat) :
  (n < gcpLineCount md name)%nat ->
  md !! gcpLineName name n = None ->
  (forall m, (m < n)%nat -> is_Some (md !! gcpLineName name m)) ->
  gcp_string md name = Raise (KeyError (gcpLineName name n)).
Proof.
  intros Hn Hnone Hbefore. unfold gcp_string.
  replace (gcpLineCount md name) with (n + S (gcpLineCount md name - S n))%nat by lia.
  rewrite seq_app. cbn [seq]. apply concat_lines_missing; [|done].
  intros m Hm. apply Hbefore. apply elem_of_seq in Hm. lia.
Qed.

(** *** Parsing a series *)

Lemma parse_values_raises (tokens : list string) (e : exn) :
  parse_values tokens = Raise e -> exists t, e = ValueError t.
Proof.
  induction tokens as [|x tokens IH]; cbn; [done|].
  destruct x as [|c x]; [exact IH|].
  destruct (PyNum.float (String c x)).
  - destruct (parse_values tokens) as [vs|e']; cbn; [done|].
    intros [= <-]. by apply IH.
  - intros [= <-]. eauto.
Qed.

Lemma parse_values_bad_token (tokens : list string) (tok : string) :
  tok ∈ tokens -> tok <> "" -> PyNum.float tok = None ->
  exists t, parse_values tokens = Raise (ValueError t).
Proof.
  intros Hin Hne Hbad. induction tokens as [|x tokens IH]; [by apply elem_of_nil in Hin|].
  apply elem_of_cons in Hin as [<-|Hin].
  - destruct tok as [|c tok]; [done|]. cbn. rewrite Hbad. eauto.
  - destruct (IH Hin) as [t Ht]. cbn.
    destruct x as [|c x]; [eauto|].
    destruct (PyNum.float (String c x)); [|eauto].
    rewrite Ht. cbn. eauto.
Qed.

Lemma gcp_series_raises (md : gmap string string) (name : string) (e : exn) :
  gcp_series md name = Raise e ->
  (exists k, e = KeyError k) \/ (exists t, e = ValueError t).
Proof.
  unfold gcp_series, gcp_string.
  destruct (concat_lines _ _ _ _) as [s|e'] eqn:Hs; cbn.
  - intros H. right. by eapply parse_values_raises.
  - intros [= <-]. left. by eapply concat_lines_raises.
Qed.

(** An exception in one series leaves the whole parsing: the one that
    comes out is the exception of the first series that raises. *)
Lemma all_series_raise (md : gmap string string) (names : list string)
    (name : string) (e : exn) :
  name ∈ names -> gcp_series md name = Raise e ->
  exists e' name', name' ∈ names /\ gcp_series md name' = Raise e' /\
                   all_series md names = Raise e'.
Proof.
  intros Hin Hraise. induction names as [|n names IH]; [by apply elem_of_nil in Hin|].
  cbn [all_series]. destruct (gcp_series md n) as [v|e1] eqn:Hn.
  - apply elem_of_cons in Hin as [->|Hin]; [congruence|].
    destruct (IH Hin) as (e' & name' & Hin' & Hr & Hall).
    exists e', name'. split; [by right|]. split; [done|].
    rewrite Hall. reflexivity.
  - exists e1, n. split; [left|]. split; [done|reflexivity].
Qed.

Lemma parse_gcps_raise (md : gmap string string) (name : string) (e : exn) :
  name ∈ gcpNames -> gcp_series md name = Raise e ->
  exists e', parse_gcps md = Raise e' /\
             ((exists k, e' = KeyError k) \/ (exists t, e' = ValueError t)).
Proof.
  intros Hin Hraise.
  destruct (all_series_raise md gcpNames name e Hin Hraise) as (e' & name' & _ & Hr & Hall).
  exists e'. split; [|by eapply gcp_series_raises].
  unfold parse_gcps. rewrite Hall. reflexivity.
Qed.

(** *** Building the points *)

Lemma build_gcps_shift (p l x y : pyfloat) (ps ls xs ys : list pyfloat)
    (indices : list nat) :
  build_gcps [p :: ps; l :: ls; x :: xs; y :: ys] (S <$> indices)
  = build_gcps [ps; ls; xs; ys] indices.
Proof.
  induction indices as [|i indices IH]; [reflexivity|].
  rewrite fmap_cons. cbn [build_gcps]. rewrite IH. reflexivity.
Qed.

Lemma build_gcps_rows (pixel line x y : list pyfloat) :
  build_gcps [pixel; line; x; y] (seq 0 (length pixel))
  = if decide (length pixel <= length line /\ length pixel <= length x /\
               length pixel <= length y)%nat
    then Ok (gcp_rows pixel line x y)
    else Raise IndexError.
Proof.
  revert line x y. induction pixel as [|p pixel IH]; intros line x y.
  - rewrite decide_True by (cbn; lia). reflexivity.
  - cbn [length seq]. rewrite <- fmap_S_seq.
    destruct x as [|x0 x]; [by rewrite decide_False by (cbn; lia)|].
    destruct y as [|y0 y]; [by rewrite decide_False by (cbn; lia)|].
    destruct line as [|l0 line]; [by rewrite decide_False by (cbn; lia)|].
    cbn [build_gcps]. rewrite build_gcps_shift, IH.
    change (item2 _ 2 0) with (Ok x0). change (item2 _ 3 0) with (Ok y0).
    change (item2 _ 0 0) with (Ok p). change (item2 _ 1 0) with (Ok l0).
    cbn [mbind result_bind length].
    destruct (decide (length pixel <= length line /\ length pixel <= length x /\
                      length pixel <= length y)%nat) as [H|H].
    + rewrite decide_True by lia. reflexivity.
    + rewrite decide_False by lia. reflexivity.
Qed.

Lemma gcp_rows_length (pixel line x y : list pyfloat) :
  (length pixel <= length line)%nat -> (length pixel <= length x)%nat ->
  (length pixel <= length y)%nat ->
  length (gcp_rows pixel line x y) = length pixel.
Proof.
  revert line x y. induction pixel as [|p pixel IH]; intros line x y Hl Hx Hy;
    [reflexivity|].
  destruct line as [|l0 line]; [cbn in Hl; lia|].
  destruct x as [|x0 x]; [cbn in Hx; lia|].
  destruct y as [|y0 y]; [cbn in Hy; lia|].
  cbn in *. rewrite IH by lia. reflexivity.
Qed.

Lemma parse_gcps_four (md : gmap string string) (pixel line x y : list pyfloat) :
  gcp_series md "GCPPixel" = Ok pixel -> gcp_series md "GCPLine" = Ok line ->
  gcp_series md "GCPX" = Ok x -> gcp_series md "GCPY" = Ok y ->
  parse_gcps md = build_gcps [pixel; line; x; y] (seq 0 (length pixel)).
Proof.
  intros Hp Hl Hx Hy. unfold parse_gcps, gcpNames. cbn [all_series].
  rewrite Hp, Hl, Hx, Hy. reflexivity.
Qed.

(** C9. The series GCPX of a mapping that holds GCPX_001 and no GCPX_000
    leaves [add_gcps_from_metadata] with a [KeyError] on GCPX_000, not
    with a count of zero. In general the number of entries of a series
    is the number of keys that contain its name (a key such as
    MY_GCPX_NOTE counts), the keys looked up are name_000 up to
    name_(count-1), and the first of them that is missing raises the
    [KeyError] that ends the whole construction. *)
Theorem gcp_lines_looked_up_by_count :
  (forall tr, add_gcps_from_metadata Sample.gcp_gap tr = (Raise (KeyError "GCPX_000"), tr)) /\
  (forall tr,
     add_gcps_from_metadata Sample.gcp_stray_key tr = (Raise (KeyError "GCPX_001"), tr)) /\
  (forall md name,
     (forall n, (n < gcpLineCount md name)%nat -> is_Some (md !! gcpLineName name n)) ->
     gcp_string md name = Ok (joined_lines md name (gcpLineCount md name))) /\
  (forall md name n,
     (n < gcpLineCount md name)%nat ->
     md !! gcpLineName name n = None ->
     (forall m, (m < n)%nat -> is_Some (md !! gcpLineName name m)) ->
     gcp_string md name = Raise (KeyError (gcpLineName name n)) /\
     (name ∈ gcpNames ->
      forall tr, exists e, add_gcps_from_metadata md tr = (Raise e, tr) /\
                           ((exists k, e = KeyError k) \/ (exists t, e = ValueError t)))).
Proof.
  split; [|split; [|split]].
  - intros tr. rewrite add_gcps_from_metadata_cases.
    replace (parse_gcps Sample.gcp_gap) with (@Raise (list GCP) (KeyError "GCPX_000"))
      by (vm_compute; reflexivity).
    reflexivity.
  - intros tr. rewrite add_gcps_from_metadata_cases.
    replace (parse_gcps Sample.gcp_stray_key) with (@Raise (list GCP) (KeyError "GCPX_001"))
      by (vm_compute; reflexivity).
    reflexivity.
  - exact gcp_string_present.
  - intros md name n Hn Hnone Hbefore.
    pose proof (gcp_string_missing md name n Hn Hnone Hbefore) as Hs.
    split; [exact Hs|]. intros Hin tr.
    assert (Hser : gcp_series md name = Raise (KeyError (gcpLineName name n)))
      by (unfold gcp_series; rewrite Hs; reflexivity).
    destruct (parse_gcps_raise md name _ Hin Hser) as (e & He & Hkind).
    exists e. split; [|exact Hkind].
    rewrite add_gcps_from_metadata_cases, He. reflexivity.
Qed.

Lemma gcp_lines_looked_up_by_count_witness :
  gcp_string Sample.gcp_gap "GCPX" = Raise (KeyError (gcpLineName "GCPX" 0)).
Proof.
  apply (proj2 (proj2 (proj2 gcp_lines_looked_up_by_count)) Sample.gcp_gap "GCPX" 0%nat).
  - vm_compute. lia.
  - vm_compute. reflexivity.
  - intros m Hm. lia.
Defined.

(** C3, counterexample. Two pixel values against one line value: the
    construction raises [IndexError]. A token that is not a number: it
    raises [ValueError]. One pixel value against two values elsewhere:
    it returns one point. None of the three returns zero points. *)
Lemma gcp_mismatch_not_zero :
  add_gcps_from_metadata Sample.gcp_short_line [] = (Raise IndexError, []) /\
  add_gcps_from_metadata Sample.gcp_bad_token [] = (Raise (ValueError "x"), []) /\
  add_gcps_from_metadata Sample.gcp_short_pixel []
  = (Ok 1, [SetGCPs [Sample.point1] ""; remove_geotransform]) /\
  fst (add_gcps_from_metadata Sample.gcp_short_line []) <> Ok 0 /\
  fst (add_gcps_from_metadata Sample.gcp_bad_token []) <> Ok 0 /\
  fst (add_gcps_from_metadata Sample.gcp_short_pixel []) <> Ok 0.
Proof.
  assert (H1 : add_gcps_from_metadata Sample.gcp_short_line [] = (Raise IndexError, []))
    by (vm_compute; reflexivity).
  assert (H2 : add_gcps_from_metadata Sample.gcp_bad_token [] = (Raise (ValueError "x"), []))
    by (vm_compute; reflexivity).
  assert (H3 : add_gcps_from_metadata Sample.gcp_short_pixel []
               = (Ok 1, [SetGCPs [Sample.point1] ""; remove_geotransform]))
    by (vm_compute; reflexivity).
  rewrite H1, H2, H3. cbn. repeat split; congruence.
Qed.

(** C3, amended. [add_gcps_from_metadata] has no recovery of its own.
    A non-empty token that [float] rejects makes the construction raise
    (a [ValueError], or the [KeyError] or [ValueError] of an earlier
    series) before anything is written to the container. When the four
    series parse, a line, X or Y series shorter than the pixel series
    makes it raise [IndexError]; otherwise it returns as many points as
    the pixel series has values, built from the leading values of the
    other three, so zero only for an empty pixel series. *)
Theorem gcps_when_series_disagree (md : gmap string string) (tr : list call) :
  (forall name s tok,
     name ∈ gcpNames -> gcp_string md name = Ok s ->
     tok ∈ gcp_tokens s -> tok <> "" -> PyNum.float tok = None ->
     exists e, add_gcps_from_metadata md tr = (Raise e, tr) /\
               ((exists k, e = KeyError k) \/ (exists t, e = ValueError t))) /\
  (forall pixel line x y,
     gcp_series md "GCPPixel" = Ok pixel -> gcp_series md "GCPLine" = Ok line ->
     gcp_series md "GCPX" = Ok x -> gcp_series md "GCPY" = Ok y ->
     ((length line < length pixel \/ length x < length pixel \/
       length y < length pixel)%nat ->
      add_gcps_from_metadata md tr = (Raise IndexError, tr)) /\
     ((length pixel <= length line)%nat -> (length pixel <= length x)%nat ->
      (length pixel <= length y)%nat ->
      parse_gcps md = Ok (gcp_rows pixel line x y) /\
      length (gcp_rows pixel line x y) = length pixel /\
      fst (add_gcps_from_metadata md tr) = Ok (Z.of_nat (length pixel)))).
Proof.
  split.
  - intros name s tok Hin Hs Htok Hne Hbad.
    destruct (parse_values_bad_token _ tok Htok Hne Hbad) as [t Ht].
    assert (Hser : gcp_series md name = Raise (ValueError t))
      by (unfold gcp_series; rewrite Hs; exact Ht).
    destruct (parse_gcps_raise md name _ Hin Hser) as (e & He & Hkind).
    exists e. split; [|exact Hkind].
    rewrite add_gcps_from_metadata_cases, He. reflexivity.
  - intros pixel line x y Hp Hl Hx Hy.
    pose proof (parse_gcps_four md pixel line x y Hp Hl Hx Hy) as Hparse.
    rewrite build_gcps_rows in Hparse. split.
    + intros Hshort. rewrite decide_False in Hparse by lia.
      rewrite add_gcps_from_metadata_cases, Hparse. reflexivity.
    + intros H1 H2 H3. rewrite decide_True in Hparse by lia.
      pose proof (gcp_rows_length pixel line x y H1 H2 H3) as Hlen.
      split; [exact Hparse|]. split; [exact Hlen|].
      rewrite add_gcps_from_metadata_cases, Hparse.
      destruct (gcp_rows pixel line x y) as [|g gs] eqn:Hrows.
      * cbn in Hlen. rewrite <- Hlen. reflexivity.
      * cbn [fst]. by rewrite Hlen.
Qed.

Lemma gcps_when_series_disagree_witness :
  add_gcps_from_metadata Sample.gcp_short_line [] = (Raise IndexError, []).
Proof.
  apply (proj2 (gcps_when_series_disagree Sample.gcp_short_line [])
           [Finite 1; Finite 2] [Finite 1] [Finite 10; Finite 20] [Finite 5; Finite 6]).
  - vm_compute. reflexivity.
  - vm_compute. reflexivity.
  - vm_compute. reflexivity.
  - vm_compute. reflexivity.
  - left. cbn. lia.
Defined.

(** ** Band descriptors *)

Lemma lookup_pop_if_in_ne (d : gmap string string) (key k : string) :
  key <> k -> pop_if_in d key !! k = d !! k.
Proof.
  intros Hne. unfold pop_if_in. destruct (d !! key); [|reflexivity].
  by apply lookup_delete_ne.
Qed.

Lemma lookup_foldl_pop_if_in (keys : list string) (d : gmap string string) (k : string) :
  k ∉ keys -> foldl pop_if_in d keys !! k = d !! k.
Proof.
  revert d. induction keys as [|key keys IH]; intros d Hnotin; [reflexivity|].
  cbn [foldl]. apply not_elem_of_cons in Hnotin as [Hne Hnotin].
  rewrite IH by done. by apply lookup_pop_if_in_ne.
Qed.

Lemma py_get_pop_if_in_ne (d : gmap string string) (key k default : string) :
  key <> k -> py_get (pop_if_in d key) k default = py_get d k default.
Proof. intros Hne. unfold py_get. by rewrite lookup_pop_if_in_ne. Qed.

(** The field wkv of a destination descriptor is always there: it holds
    the standard name, or the empty string. *)
Lemma band_descriptor_wkv (fileName : string) (iBand : nat) (subBand : Band) :
  dst (band_descriptor fileName iBand subBand) !! "wkv"
  = Some (py_get (GetMetadata_Dict subBand) "standard_name" "").
Proof.
  unfold band_descriptor. cbn [dst].
  rewrite lookup_foldl_pop_if_in by (apply (bool_decide_unpack _); vm_compute; exact I).
  rewrite py_get_pop_if_in_ne by done.
  match goal with
  | |- match ?b with EmptyString => _ | String _ _ => _ end !! _ = _ => destruct b
  end.
  - by rewrite lookup_insert_eq.
  - rewrite lookup_insert_ne by done. by rewrite lookup_insert_eq.
Qed.

(** C5, counterexample. A band without any metadata gets a destination
    descriptor whose field wkv is present and empty. *)
Lemma wkv_present_without_standard_name :
  GetMetadata_Dict Sample.plain_band !! "standard_name" = None /\
  dst (band_descriptor "data" 0 Sample.plain_band) !! "wkv" = Some "" /\
  dst (band_descriptor "data" 0 Sample.plain_band) !! "wkv" <> None.
Proof.
  split; [reflexivity|]. rewrite band_descriptor_wkv. split; [reflexivity|done].
Qed.

(** C5, amended. For every band whose raw metadata has no standard_name
    key the destination descriptor carries the field wkv with the empty
    string as its value. *)
Theorem wkv_empty_without_standard_name (fileName : string) (iBand : nat) (subBand : Band) :
  GetMetadata_Dict subBand !! "standard_name" = None ->
  dst (band_descriptor fileName iBand subBand) !! "wkv" = Some "".
Proof.
  intros Hnone. rewrite band_descriptor_wkv. unfold py_get. by rewrite Hnone.
Qed.

Lemma wkv_empty_without_standard_name_witness :
  dst (band_descriptor "data" 0 Sample.plain_band) !! "wkv" = Some "".
Proof.
  apply (wkv_empty_without_standard_name "data" 0 Sample.plain_band). reflexivity.
Defined.

(** ** Metadata normalisation *)

Lemma split_second_matches (sep s k : string) :
  PyStr.split sep s !! 1%nat = Some k -> PyStr.contains sep s = true.
Proof.
  unfold PyStr.split, PyStr.contains.
  destruct (String.length s) as [|fuel]; cbn [PyStr.split_from]; [done|].
  destruct (PyStr.find sep s); done.
Qed.

Lemma normalize_key_no_match (d : list (string * string))
    (st : gmap string string * gmap string string) (key : string) :
  ~ contains_literal key -> normalize_key d st key = st.
Proof.
  intros Hno. unfold normalize_key. destruct st as [tmp geo].
  destruct (getitem d key); [|reflexivity].
  destruct (PyStr.split NC_GLOBAL_GDAL key !! 1%nat) as [k1|] eqn:Hk1; [|reflexivity].
  exfalso. apply Hno. by eapply split_second_matches.
Qed.

Lemma normalize_key_same_item (d1 d2 : list (string * string))
    (st : gmap string string * gmap string string) (key : string) :
  getitem d1 key = getitem d2 key -> normalize_key d1 st key = normalize_key d2 st key.
Proof. intros H. unfold normalize_key. by rewrite H. Qed.

Lemma getitem_filter (d : list (string * string)) (key : string) :
  contains_literal key ->
  getitem (filter (fun kv => contains_literal kv.1) d) key = getitem d key.
Proof.
  intros HP. induction d as [|[k v] d IH]; [reflexivity|].
  destruct (decide (contains_literal k)) as [Hk|Hk].
  - rewrite filter_cons_True by done. cbn [getitem]. by rewrite IH.
  - rewrite filter_cons_False by done. cbn [getitem].
    rewrite decide_False by congruence. exact IH.
Qed.

Lemma normalize_key_provenance (d : list (string * string))
    (st : gmap string string * gmap string string) (key : string) :
  key ∈ d.*1 ->
  (forall k v, st.1 !! k = Some v -> from_key_with_literal d k v) ->
  forall k v, (normalize_key d st key).1 !! k = Some v -> from_key_with_literal d k v.
Proof.
  intros Hin Hst k v. unfold normalize_key. destruct st as [tmp geo]. cbn [fst] in Hst.
  destruct (getitem d key) as [value|] eqn:Hitem; [|by apply Hst].
  destruct (PyStr.split NC_GLOBAL_GDAL key !! 1%nat) as [k1|] eqn:Hk1; [|by apply Hst].
  assert (Hnew : forall k v, <[k1:=value]> tmp !! k = Some v -> from_key_with_literal d k v).
  { intros k' v' Hl. destruct (decide (k1 = k')) as [<-|Hne].
    - rewrite lookup_insert_eq in Hl. injection Hl as <-.
      exists key. split; [done|]. split; [by eapply split_second_matches|done].
    - rewrite lookup_insert_ne in Hl by done. by apply Hst. }
  destruct (PyStr.contains "NANSAT" key); [|by apply Hnew].
  destruct (PyStr.split NC_GLOBAL_GDAL_NANSAT key !! 1%nat); [|by apply Hnew].
  cbn [fst]. intros Hl. apply Hnew.
  destruct (decide (k1 = k)) as [<-|Hne].
  - by rewrite lookup_delete_eq in Hl.
  - by rewrite lookup_delete_ne in Hl.
Qed.

Lemma foldl_normalize_provenance (d : list (string * string)) (keys : list string)
    (st : gmap string string * gmap string string) :
  keys ⊆ d.*1 ->
  (forall k v, st.1 !! k = Some v -> from_key_with_literal d k v) ->
  forall k v, (foldl (normalize_key d) st keys).1 !! k = Some v -> from_key_with_literal d k v.
Proof.
  revert st. induction keys as [|key keys IH]; intros st Hsub Hst; [exact Hst|].
  cbn [foldl]. apply IH.
  - intros x Hx. apply Hsub. by right.
  - apply normalize_key_provenance; [|exact Hst]. apply Hsub. left.
Qed.

Lemma foldl_normalize_filter (d0 d : list (string * string))
    (st : gmap string string * gmap string string) :
  foldl (normalize_key d0) st d.*1
  = foldl (normalize_key (filter (fun kv => contains_literal kv.1) d0)) st
      (filter (fun kv => contains_literal kv.1) d).*1.
Proof.
  revert st. induction d as [|[k v] d IH]; intros st; [reflexivity|].
  rewrite fmap_cons. cbn [foldl fst].
  destruct (decide (contains_literal k)) as [Hk|Hk].
  - rewrite filter_cons_True by done. rewrite fmap_cons. cbn [foldl fst].
    rewrite IH. f_equal. apply normalize_key_same_item.
    symmetry. by apply getitem_filter.
  - rewrite filter_cons_False by done.
    rewrite normalize_key_no_match by done. apply IH.
Qed.

(** C6, counterexample. The only raw key is abcNC_GLOBAL#GDAL_mid: it
    does not start with the literal, yet the primary mapping holds mid
    with its value. *)
Lemma key_without_prefix_kept :
  (forall key, key ∈ Sample.inner_literal.*1 -> ~ has_prefix key) /\
  (normalize Sample.inner_literal).1 !! "mid" = Some "m".
Proof.
  split; [|vm_compute; reflexivity].
  intros key Hin. cbn in Hin. apply list_elem_of_singleton in Hin as ->.
  unfold has_prefix. vm_compute. discriminate.
Qed.

(** C6, amended. Every entry of the normalised primary mapping comes
    from a raw key in which the literal NC_GLOBAL#GDAL_ occurs, at its
    start or further inside: its key is what follows the first
    occurrence (up to the next one) and its value the raw value. Raw
    keys in which the literal does not occur leave nothing behind:
    taking them out of the input changes neither the primary nor the
    geolocation mapping. (A normalised key is spelled like such a raw
    key only when it is the de-prefixed form of another raw key, one
    that has the literal.) *)
Theorem normalized_keys_from_keys_with_literal (gdalMetadata : list (string * string)) :
  (forall k v, (normalize gdalMetadata).1 !! k = Some v ->
     exists key, key ∈ gdalMetadata.*1 /\ contains_literal key /\
                 PyStr.split NC_GLOBAL_GDAL key !! 1%nat = Some k /\
                 getitem gdalMetadata key = Some v) /\
  normalize gdalMetadata
  = normalize (filter (fun kv => contains_literal kv.1) gdalMetadata) /\
  (forall key, has_prefix key -> contains_literal key).
Proof.
  split; [|split].
  - intros k v. unfold normalize. apply foldl_normalize_provenance; [done|].
    intros k' v' Hl. cbn in Hl. by rewrite lookup_empty in Hl.
  - unfold normalize. apply foldl_normalize_filter.
  - intros key Hp. unfold has_prefix in Hp. unfold contains_literal, PyStr.contains.
    destruct key; cbn [PyStr.find]; by rewrite Hp.
Qed.

Lemma normalized_keys_from_keys_with_literal_witness :
  exists key, key ∈ Sample.raw_metadata.*1 /\ contains_literal key /\
              PyStr.split NC_GLOBAL_GDAL key !! 1%nat = Some "title" /\
              getitem Sample.raw_metadata key = Some "t".
Proof.
  apply (proj1 (normalized_keys_from_keys_with_literal Sample.raw_metadata) "title" "t").
  vm_compute. reflexivity.
Defined.

(** ** Reference grid and geolocation sources *)

Section Scan.

Variable gdal_Open : string -> SubDataset.

Lemma scan_snoc (fileNames : list string) (f : string) :
  scan gdal_Open (fileNames ++ [f]) = loop_body gdal_Open (scan gdal_Open fileNames) f.
Proof. unfold scan. apply foldl_snoc. Qed.

Lemma classify_keeps_first (st : locals) (f : string) (sd : SubDataset) :
  firstSubDataset (classify st f sd) = firstSubDataset st /\
  projection (classify st f sd) = projection st /\
  firstXSize (classify st f sd) = firstXSize st /\
  firstYSize (classify st f sd) = firstYSize st.
Proof.
  unfold classify. destruct (decide _); [|done].
  destruct (is_x_name f); [done|]. destruct (is_y_name f); done.
Qed.

Lemma choose_first_settled (st : locals) (sd : SubDataset) :
  firstXSize st <> 0 -> choose_first st sd = st.
Proof. intros H. unfold choose_first. rewrite decide_False; [done|]. tauto. Qed.

Lemma choose_first_no_grid (st : locals) (sd : SubDataset) :
  ~ has_grid sd -> choose_first st sd = st.
Proof.
  intros H. unfold choose_first. rewrite decide_False; [done|].
  unfold has_grid in H. tauto.
Qed.

(** The reference grid is the first dataset with a grid, and the sizes
    and the projection kept are its own. *)
Lemma scan_first (fileNames : list string) :
  firstSubDataset (scan gdal_Open fileNames)
  = gdal_Open <$> head (grid_names gdal_Open fileNames) /\
  projection (scan gdal_Open fileNames)
  = GetProjection <$> firstSubDataset (scan gdal_Open fileNames) /\
  match firstSubDataset (scan gdal_Open fileNames) with
  | Some ref =>
      firstXSize (scan gdal_Open fileNames) = RasterXSize ref /\
      firstYSize (scan gdal_Open fileNames) = RasterYSize ref /\ has_grid ref
  | None =>
      firstXSize (scan gdal_Open fileNames) = 0 /\
      firstYSize (scan gdal_Open fileNames) = 0
  end.
Proof.
  induction fileNames as [|f fileNames IH] using rev_ind; [done|].
  rewrite scan_snoc. unfold loop_body, grid_names. rewrite filter_app, head_app.
  fold (grid_names gdal_Open fileNames).
  destruct (classify_keeps_first
              (choose_first (scan gdal_Open fileNames) (gdal_Open f)) f (gdal_Open f))
    as (-> & -> & -> & ->).
  destruct IH as (Hfirst & Hproj & Hsizes).
  destruct (firstSubDataset (scan gdal_Open fileNames)) as [ref|] eqn:Href.
  - destruct Hsizes as (HX & HY & Hgrid).
    rewrite choose_first_settled by (unfold has_grid in Hgrid; lia).
    rewrite Href. destruct (head (grid_names gdal_Open fileNames)); [|done].
    by rewrite Hproj.
  - destruct (head (grid_names gdal_Open fileNames)); [done|].
    destruct Hsizes as [HX HY].
    destruct (decide (has_grid (gdal_Open f))) as [Hg|Hg].
    + rewrite filter_cons_True by done. unfold choose_first.
      rewrite decide_True by (unfold has_grid in Hg; tauto). done.
    + rewrite filter_cons_False by done. rewrite choose_first_no_grid by done.
      by rewrite Href.
Qed.

Lemma no_grid_before_first (fileNames : list string) (g : string) :
  firstSubDataset (scan gdal_Open fileNames) = None ->
  g ∈ fileNames -> ~ has_grid (gdal_Open g).
Proof.
  intros Hnone Hin Hg. destruct (scan_first fileNames) as (Hfirst & _).
  rewrite Hnone in Hfirst. symmetry in Hfirst.
  apply fmap_None, head_None in Hfirst.
  eapply (filter_nil_not_elem_of _ _ g Hfirst); [exact Hg|exact Hin].
Qed.

Lemma same_size_has_grid (ref sd : SubDataset) :
  has_grid ref -> same_size ref sd -> has_grid sd.
Proof. unfold has_grid, same_size. lia. Qed.

Lemma filter_none {A} (P : A -> Prop) `{!forall x, Decision (P x)} (l : list A) :
  (forall x, x ∈ l -> ~ P x) -> filter P l = [].
Proof.
  induction l as [|x l IH]; intros Hall; [done|].
  rewrite filter_cons_False by (apply Hall; left). apply IH.
  intros y Hy. apply Hall. by right.
Qed.

(** What one turn of the loop does to the three results, on a state
    whose sizes are already those of [choose_first]. *)
Lemma classify_x (st : locals) (f : string) (sd : SubDataset) :
  RasterXSize sd = firstXSize st -> RasterYSize sd = firstYSize st ->
  is_x_name f = true ->
  xDatasetSource (classify st f sd) = f.
Proof.
  intros HX HY Hx. unfold classify. rewrite decide_True by done. by rewrite Hx.
Qed.

Lemma classify_y (st : locals) (f : string) (sd : SubDataset) :
  RasterXSize sd = firstXSize st -> RasterYSize sd = firstYSize st ->
  is_x_name f = false -> is_y_name f = true ->
  yDatasetSource (classify st f sd) = f.
Proof.
  intros HX HY Hx Hy. unfold classify. rewrite decide_True by done.
  by rewrite Hx, Hy.
Qed.

Lemma classify_x_unchanged (st : locals) (f : string) (sd : SubDataset) :
  ~ (RasterXSize sd = firstXSize st /\ RasterYSize sd = firstYSize st /\
     is_x_name f = true) ->
  xDatasetSource (classify st f sd) = xDatasetSource st.
Proof.
  intros H. unfold classify. destruct (decide _) as [[HX HY]|]; [|done].
  destruct (is_x_name f); [tauto|]. destruct (is_y_name f); done.
Qed.

Lemma classify_y_unchanged (st : locals) (f : string) (sd : SubDataset) :
  ~ (RasterXSize sd = firstXSize st /\ RasterYSize sd = firstYSize st /\
     is_x_name f = false /\ is_y_name f = true) ->
  yDatasetSource (classify st f sd) = yDatasetSource st.
Proof.
  intros H. unfold classify. destruct (decide _) as [[HX HY]|]; [|done].
  destruct (is_x_name f); [done|]. destruct (is_y_name f); [tauto|done].
Qed.

Lemma choose_first_keeps_sources (st : locals) (sd : SubDataset) :
  xDatasetSource (choose_first st sd) = xDatasetSource st /\
  yDatasetSource (choose_first st sd) = yDatasetSource st /\
  metaDict (choose_first st sd) = metaDict st.
Proof. unfold choose_first. destruct (decide _); done. Qed.

(** The state in which the loop body classifies [f], after a list
    whose reference grid, if any, is known. *)
Lemma loop_body_cases (fileNames : list string) (f : string) (ref : SubDataset) :
  firstSubDataset (scan gdal_Open (fileNames ++ [f])) = Some ref ->
  exists st,
    scan gdal_Open (fileNames ++ [f]) = classify st f (gdal_Open f) /\
    firstXSize st = RasterXSize ref /\ firstYSize st = RasterYSize ref /\
    has_grid ref /\
    xDatasetSource st = xDatasetSource (scan gdal_Open fileNames) /\
    yDatasetSource st = yDatasetSource (scan gdal_Open fileNames) /\
    (firstSubDataset (scan gdal_Open fileNames) = Some ref \/
     firstSubDataset (scan gdal_Open fileNames) = None /\ ref = gdal_Open f).
Proof.
  intros Href. pose proof (scan_first (fileNames ++ [f])) as (_ & _ & Hnew).
  rewrite Href in Hnew. destruct Hnew as (HX & HY & Hgrid).
  rewrite scan_snoc in Href, HX, HY. unfold loop_body in Href, HX, HY.
  destruct (classify_keeps_first
              (choose_first (scan gdal_Open fileNames) (gdal_Open f)) f (gdal_Open f))
    as (E1 & _ & E3 & E4).
  rewrite E1 in Href. rewrite E3 in HX. rewrite E4 in HY.
  destruct (choose_first_keeps_sources (scan gdal_Open fileNames) (gdal_Open f))
    as (Ex & Ey & _).
  exists (choose_first (scan gdal_Open fileNames) (gdal_Open f)).
  split; [by rewrite scan_snoc|]. do 5 (split; [done|]).
  revert Href. unfold choose_first. destruct (decide _) as [Hc|Hc]; cbn.
  - intros [= <-]. right. split; [|done].
    pose proof (scan_first fileNames) as (_ & _ & Hold).
    destruct (firstSubDataset (scan gdal_Open fileNames)) as [old|]; [|done].
    destruct Hold as (HoX & _ & Hog). unfold has_grid in Hog. lia.
  - by left.
Qed.

(** The X source is the last file of the reference size with an X
    name. *)
Lemma scan_x (fileNames : list string) (ref : SubDataset) (f : string) :
  firstSubDataset (scan gdal_Open fileNames) = Some ref ->
  last (x_matches gdal_Open ref fileNames) = Some f ->
  xDatasetSource (scan gdal_Open fileNames) = f.
Proof.
  revert ref f. induction fileNames as [|f0 fileNames IH] using rev_ind;
    intros ref f Href Hlast; [done|].
  destruct (loop_body_cases fileNames f0 ref Href)
    as (st & -> & HX & HY & Hgrid & Hxs & _ & Hold).
  unfold x_matches in Hlast. rewrite filter_app in Hlast.
  fold (x_matches gdal_Open ref fileNames) in Hlast.
  destruct (decide (same_size ref (gdal_Open f0) /\ is_x_name f0 = true))
    as [[[HsX HsY] Hx]|Hno].
  - rewrite filter_cons_True in Hlast by done. rewrite filter_nil, last_snoc in Hlast.
    injection Hlast as <-. apply classify_x; [congruence|congruence|done].
  - rewrite filter_cons_False in Hlast by done.
    rewrite filter_nil, app_nil_r in Hlast.
    rewrite classify_x_unchanged
      by (unfold same_size in Hno; rewrite HX, HY; tauto).
    rewrite Hxs. destruct Hold as [Hold|[Hold ->]].
    + by apply (IH ref).
    + exfalso. unfold x_matches in Hlast. rewrite filter_none in Hlast; [done|].
      intros g Hg [Hsame _].
      apply (no_grid_before_first fileNames g Hold Hg).
      by eapply same_size_has_grid.
Qed.

(** The Y source is the last file of the reference size with a Y name
    and no X name. *)
Lemma scan_y (fileNames : list string) (ref : SubDataset) (f : string) :
  firstSubDataset (scan gdal_Open fileNames) = Some ref ->
  last (y_matches gdal_Open ref fileNames) = Some f ->
  yDatasetSource (scan gdal_Open fileNames) = f.
Proof.
  revert ref f. induction fileNames as [|f0 fileNames IH] using rev_ind;
    intros ref f Href Hlast; [done|].
  destruct (loop_body_cases fileNames f0 ref Href)
    as (st & -> & HX & HY & Hgrid & _ & Hys & Hold).
  unfold y_matches in Hlast. rewrite filter_app in Hlast.
  fold (y_matches gdal_Open ref fileNames) in Hlast.
  destruct (decide (same_size ref (gdal_Open f0) /\ is_x_name f0 = false /\
                    is_y_name f0 = true)) as [[[HsX HsY] [Hx Hy]]|Hno].
  - rewrite filter_cons_True in Hlast by done. rewrite filter_nil, last_snoc in Hlast.
    injection Hlast as <-. apply classify_y; [congruence|congruence|done|done].
  - rewrite filter_cons_False in Hlast by done.
    rewrite filter_nil, app_nil_r in Hlast.
    rewrite classify_y_unchanged
      by (unfold same_size in Hno; rewrite HX, HY; tauto).
    rewrite Hys. destruct Hold as [Hold|[Hold ->]].
    + by apply (IH ref).
    + exfalso. unfold y_matches in Hlast. rewrite filter_none in Hlast; [done|].
      intros g Hg [Hsame _].
      apply (no_grid_before_first fileNames g Hold Hg).
      by eapply same_size_has_grid.
Qed.

Lemma band_descriptors_source (f : string) (sd : SubDataset) (d : BandDescriptor) :
  d ∈ band_descriptors f sd -> SourceFilename (src d) = f.
Proof.
  unfold band_descriptors. intros Hd.
  apply elem_of_lookup_imap_1 in Hd as (i & b & -> & _). reflexivity.
Qed.

Lemma classify_metaDict (st : locals) (f : string) (sd : SubDataset) (d : BandDescriptor) :
  d ∈ metaDict (classify st f sd) ->
  d ∈ metaDict st \/
  (is_x_name f = false /\ is_y_name f = false /\ SourceFilename (src d) = f).
Proof.
  unfold classify. destruct (decide _); [|by left].
  destruct (is_x_name f); [by left|]. destruct (is_y_name f); [by left|].
  cbn. intros [H|H]%elem_of_app; [by left|right].
  split; [done|]. split; [done|]. by eapply band_descriptors_source.
Qed.

(** No band descriptor is built from a file with an X or a Y name. *)
Lemma scan_metaDict (fileNames : list string) (d : BandDescriptor) :
  d ∈ metaDict (scan gdal_Open fileNames) ->
  is_x_name (SourceFilename (src d)) = false /\
  is_y_name (SourceFilename (src d)) = false.
Proof.
  induction fileNames as [|f fileNames IH] using rev_ind.
  - cbn. by intros ?%elem_of_nil.
  - rewrite scan_snoc. unfold loop_body. intros Hd.
    apply classify_metaDict in Hd as [Hd|(Hx & Hy & ->)]; [|done].
    apply IH.
    by destruct (choose_first_keeps_sources (scan gdal_Open fileNames) (gdal_Open f))
      as (_ & _ & <-).
Qed.

(** A file with an X name never becomes the Y source and never gives
    band descriptors, whatever else its name contains. *)
Lemma loop_body_x_name (st : locals) (f : string) :
  is_x_name f = true ->
  yDatasetSource (loop_body gdal_Open st f) = yDatasetSource st /\
  metaDict (loop_body gdal_Open st f) = metaDict st /\
  (xDatasetSource (loop_body gdal_Open st f) = f \/
   loop_body gdal_Open st f = choose_first st (gdal_Open f)).
Proof.
  intros Hx. unfold loop_body.
  destruct (choose_first_keeps_sources st (gdal_Open f)) as (_ & Ey & Em).
  unfold classify. destruct (decide _); [|by auto].
  rewrite Hx. cbn. auto.
Qed.

End Scan.

(** C10. The reference grid is the first file with a grid. The X source
    is the last file of the reference size whose name has an X pattern,
    the Y source the last one whose name has a Y pattern and no X
    pattern: a later match replaces an earlier one. No band descriptor
    comes from a file with an X or a Y name, and a file with an X name
    is never taken as Y source, whatever else its name contains. *)
Theorem geolocation_sources_last_match (gdal_Open : string -> SubDataset)
    (fileNames : list string) :
  firstSubDataset (scan gdal_Open fileNames)
  = gdal_Open <$> head (grid_names gdal_Open fileNames) /\
  (forall ref f,
     firstSubDataset (scan gdal_Open fileNames) = Some ref ->
     last (x_matches gdal_Open ref fileNames) = Some f ->
     xDatasetSource (scan gdal_Open fileNames) = f) /\
  (forall ref f,
     firstSubDataset (scan gdal_Open fileNames) = Some ref ->
     last (y_matches gdal_Open ref fileNames) = Some f ->
     yDatasetSource (scan gdal_Open fileNames) = f) /\
  (forall d, d ∈ metaDict (scan gdal_Open fileNames) ->
     is_x_name (SourceFilename (src d)) = false /\
     is_y_name (SourceFilename (src d)) = false) /\
  (forall st f,
     is_x_name f = true ->
     yDatasetSource (loop_body gdal_Open st f) = yDatasetSource st /\
     metaDict (loop_body gdal_Open st f) = metaDict st /\
     (xDatasetSource (loop_body gdal_Open st f) = f \/
      loop_body gdal_Open st f = choose_first st (gdal_Open f))).
Proof.
  split; [apply scan_first|].
  split; [intros ref f; apply scan_x|].
  split; [intros ref f; apply scan_y|].
  split; [intros d; apply scan_metaDict|].
  intros st f. apply loop_body_x_name.
Qed.

Lemma geolocation_sources_last_match_witness :
  xDatasetSource (scan (fun _ => Sample.grid 0) Sample.several_sources)
  = "latitude_longitude" /\
  yDatasetSource (scan (fun _ => Sample.grid 0) Sample.several_sources) = "latitude".
Proof.
  pose proof (geolocation_sources_last_match (fun _ => Sample.grid 0) Sample.several_sources)
    as (_ & Hx & Hy & _).
  split.
  - apply (Hx (Sample.grid 0)); vm_compute; reflexivity.
  - apply (Hy (Sample.grid 0)); vm_compute; reflexivity.
Defined.

(** ** The constructor as a whole *)

Section Init.

Variable gdal_Open : string -> SubDataset.
Variable latlongSRS_wkt : string.

(** With a reference grid the constructor creates the container, the
    bands and the projection, then resolves the geolocation. *)
Lemma Mapper_init_with_grid (fileName : string) (subDatasets gdalMetadata : list (string * string))
    (first : SubDataset) (tr : list call) :
  let st := scan gdal_Open (fileNames_of fileName subDatasets) in
  firstSubDataset st = Some first ->
  Mapper_init gdal_Open latlongSRS_wkt fileName subDatasets gdalMetadata tr
  = resolve_geolocation first (xDatasetSource st) (yDatasetSource st)
      (normalize gdalMetadata).2
      (tr ++ [VRT_init first (normalize gdalMetadata).1;
              create_bands (metaDict st);
              SetProjection (repare_projection
                (choose_projection latlongSRS_wkt (normalize gdalMetadata).2
                   (GetProjection first)))]).
Proof.
  intros st Hfirst. unfold Mapper_init. fold st.
  destruct (normalize gdalMetadata) as [tmp geo]. cbn [fst snd].
  destruct (scan_first gdal_Open (fileNames_of fileName subDatasets)) as (_ & Hproj & _).
  fold st in Hproj. rewrite Hfirst in Hproj. rewrite Hfirst, Hproj.
  unfold bind_M, read_local, ret_M, emit. cbn [fmap option_fmap option_map].
  by rewrite <- !(assoc_L (++)).
Qed.

(** Without one it stops at the first use of [firstSubDataset]. *)
Lemma Mapper_init_without_grid (fileName : string)
    (subDatasets gdalMetadata : list (string * string)) (tr : list call) :
  firstSubDataset (scan gdal_Open (fileNames_of fileName subDatasets)) = None ->
  Mapper_init gdal_Open latlongSRS_wkt fileName subDatasets gdalMetadata tr
  = (Raise (UnboundLocalError "firstSubDataset"), tr).
Proof.
  intros Hnone. unfold Mapper_init.
  destruct (normalize gdalMetadata) as [tmp geo]. rewrite Hnone. reflexivity.
Qed.

Lemma scan_no_grid (fileNames : list string) :
  (forall f, f ∈ fileNames -> ~ has_grid (gdal_Open f)) ->
  firstSubDataset (scan gdal_Open fileNames) = None.
Proof.
  intros Hno. destruct (scan_first gdal_Open fileNames) as (-> & _).
  unfold grid_names. by rewrite filter_none.
Qed.

End Init.

Lemma string_length_pos (s : string) : s <> "" -> (0 < String.length s)%nat.
Proof. destruct s; [done|]. cbn. lia. Qed.

(** With both sources and native points the resolver installs the
    geolocation array and nothing else. *)
Lemma resolve_with_sources (first : SubDataset) (xs ys : string)
    (geoMetadata : gmap string string) (tr : list call) :
  GetGCPCount first <> 0 -> xs <> "" -> ys <> "" ->
  resolve_geolocation first xs ys geoMetadata tr
  = (Ok tt, tr ++ [add_geolocationArray xs ys]).
Proof.
  intros Hg Hx Hy. unfold resolve_geolocation, bind_M.
  rewrite decide_False by done. cbn.
  rewrite decide_True by (split; by apply string_length_pos). reflexivity.
Qed.

(** With no point, no pair of sources, no geotransform in the container
    and no GeoTransform entry, the resolver hands the container the
    seven numbers of the default string. *)
Lemma resolve_default (first : SubDataset) (xs ys : string)
    (geoMetadata : gmap string string) (tr : list call) :
  GetGCPCount first = 0 -> parse_gcps geoMetadata = Ok [] ->
  xs = "" \/ ys = "" ->
  vrt_GeoTransform first = [] -> geoMetadata !! "GeoTransform" = None ->
  resolve_geolocation first xs ys geoMetadata tr
  = (Ok tt, tr ++ [SetGeoTransform Sample.seven]).
Proof.
  intros Hg Hparse Hsrc Hgt Hnone. unfold resolve_geolocation, bind_M.
  rewrite decide_True by done.
  rewrite add_gcps_from_metadata_cases, Hparse.
  rewrite decide_False by (destruct Hsrc as [-> | ->]; cbn; lia).
  rewrite decide_True by done. rewrite Hgt. rewrite decide_True by done.
  unfold py_get. rewrite Hnone. reflexivity.
Qed.

(** C1, counterexample. A 10 x 10 reference grid with three native
    points, next to a longitude and a latitude file of the same size:
    the constructor installs the geolocation array. *)
Lemma native_gcps_do_not_block_array :
  GetGCPCount (Sample.grid 3) > 0 /\
  xDatasetSource (scan (fun _ => Sample.grid 3) (Sample.with_lon_lat.*1)) = "longitude" /\
  yDatasetSource (scan (fun _ => Sample.grid 3) (Sample.with_lon_lat.*1)) = "latitude" /\
  add_geolocationArray "longitude" "latitude"
    ∈ snd (Mapper_init (fun _ => Sample.grid 3) Sample.wgs84 "file"
             Sample.with_lon_lat [] []).
Proof.
  split; [done|]. split; [vm_compute; reflexivity|]. split; [vm_compute; reflexivity|].
  rewrite (Mapper_init_with_grid _ _ _ _ _ (Sample.grid 3)) by (vm_compute; reflexivity).
  rewrite resolve_with_sources by (vm_compute; congruence).
  cbn [snd]. apply elem_of_app. right. vm_compute. left.
Qed.

(** C1, amended. When the reference grid has native points and both an
    X and a Y source were found, the constructor installs the
    geolocation array: after the container, the bands and the projection
    that is its only call. No point is parsed from the metadata, no
    geotransform is set, and the native points are not touched. *)
Theorem array_installed_beside_native_gcps (gdal_Open : string -> SubDataset)
    (latlongSRS_wkt fileName : string) (subDatasets gdalMetadata : list (string * string))
    (first : SubDataset) (tr : list call) :
  let st := scan gdal_Open (fileNames_of fileName subDatasets) in
  firstSubDataset st = Some first ->
  GetGCPCount first > 0 ->
  xDatasetSource st <> "" -> yDatasetSource st <> "" ->
  Mapper_init gdal_Open latlongSRS_wkt fileName subDatasets gdalMetadata tr
  = (Ok tt,
     tr ++ [VRT_init first (normalize gdalMetadata).1;
            create_bands (metaDict st);
            SetProjection (repare_projection
              (choose_projection latlongSRS_wkt (normalize gdalMetadata).2
                 (GetProjection first)));
            add_geolocationArray (xDatasetSource st) (yDatasetSource st)]).
Proof.
  intros st Hfirst Hg Hx Hy.
  rewrite (Mapper_init_with_grid _ _ _ _ _ first) by exact Hfirst.
  fold st. rewrite resolve_with_sources by (done || lia).
  by rewrite <- (assoc_L (++)).
Qed.

Lemma array_installed_beside_native_gcps_witness :
  Mapper_init (fun _ => Sample.grid 3) Sample.wgs84 "file" Sample.with_lon_lat [] []
  = (Ok tt,
     [VRT_init (Sample.grid 3) ∅;
      create_bands (metaDict (scan (fun _ => Sample.grid 3) (Sample.with_lon_lat.*1)));
      SetProjection Sample.wgs84;
      add_geolocationArray "longitude" "latitude"]).
Proof.
  apply (array_installed_beside_native_gcps (fun _ => Sample.grid 3) Sample.wgs84 "file"
           Sample.with_lon_lat [] (Sample.grid 3) []).
  - vm_compute. reflexivity.
  - vm_compute. reflexivity.
  - vm_compute. congruence.
  - vm_compute. congruence.
Defined.

(** The branch that reads the GeoTransform entry runs only when the
    container answers a geotransform of length 0. There, on one
    10 x 10 dataset without native points, geolocation files or
    metadata, the default literal gives [SetGeoTransform] the seven
    numbers (0, 1, 0, 0, 0, 0, 1), not the six of the identity
    transform. *)
Lemma default_geotransform_has_seven_coefficients :
  Mapper_init (fun _ => Sample.grid 0) Sample.wgs84 "file" [] [] []
  = (Ok tt,
     [VRT_init (Sample.grid 0) ∅;
      create_bands [band_descriptor "file" 0 Sample.plain_band];
      SetProjection Sample.wgs84;
      SetGeoTransform Sample.seven]) /\
  length Sample.seven = 7%nat /\
  SetGeoTransform Sample.identity6
    ∉ snd (Mapper_init (fun _ => Sample.grid 0) Sample.wgs84 "file" [] [] []).
Proof.
  assert (H : Mapper_init (fun _ => Sample.grid 0) Sample.wgs84 "file" [] [] []
              = (Ok tt,
                 [VRT_init (Sample.grid 0) ∅;
                  create_bands [band_descriptor "file" 0 Sample.plain_band];
                  SetProjection Sample.wgs84;
                  SetGeoTransform Sample.seven])).
  { rewrite (Mapper_init_with_grid _ _ _ _ _ (Sample.grid 0)) by (vm_compute; reflexivity).
    rewrite resolve_default;
      [vm_compute; reflexivity | reflexivity | vm_compute; reflexivity
      | left; vm_compute; reflexivity | reflexivity | vm_compute; reflexivity]. }
  split; [exact H|]. split; [reflexivity|].
  rewrite H. cbn [snd]. rewrite !not_elem_of_cons. repeat split; try discriminate.
  apply not_elem_of_nil.
Qed.




(** C4, counterexample. A single dataset one pixel wide: the exception
    that ends the constructor is the interpreter's [UnboundLocalError]
    for the variable firstSubDataset, read when the container is about
    to be created. The mapper has no test and no message of its own for
    a missing grid. *)
Lemma no_grid_unbound_local :
  ~ has_grid Sample.column /\
  Mapper_init (fun _ => Sample.column) Sample.wgs84 "file" [] Sample.raw_metadata []
  = (Raise (UnboundLocalError "firstSubDataset"), []).
Proof.
  split; [unfold has_grid; cbn; lia|].
  apply Mapper_init_without_grid. vm_compute. reflexivity.
Qed.

(** C4, amended. When no file of the list has both sizes above 1 the
    constructor fails as a whole: reading the variable firstSubDataset,
    which was never assigned, raises [UnboundLocalError] before anything
    is written to the container, so no raster model comes back. *)
Theorem no_grid_fails_before_container (gdal_Open : string -> SubDataset)
    (latlongSRS_wkt fileName : string) (subDatasets gdalMetadata : list (string * string))
    (tr : list call) :
  (forall f, f ∈ fileNames_of fileName subDatasets -> ~ has_grid (gdal_Open f)) ->
  Mapper_init gdal_Open latlongSRS_wkt fileName subDatasets gdalMetadata tr
  = (Raise (UnboundLocalError "firstSubDataset"), tr).
Proof.
  intros Hno. apply Mapper_init_without_grid. by apply scan_no_grid.
Qed.

Lemma no_grid_fails_before_container_witness :
  Mapper_init (fun _ => Sample.column) Sample.wgs84 "file" [] Sample.raw_metadata []
  = (Raise (UnboundLocalError "firstSubDataset"), []).
Proof.
  apply (no_grid_fails_before_container (fun _ => Sample.column) Sample.wgs84 "file" []
           Sample.raw_metadata []).
  intros f Hf. unfold has_grid. cbn. lia.
Defined.

(** * Further properties *)

(** ** Band descriptors: scale, offset, name, cleaning *)

Lemma nonempty_not_empty (s : string) : nonempty s <> Some "".
Proof. destruct s; cbn; congruence. Qed.

(** X1. The scale ratio of a source descriptor is the value of the first
    key present among ScaleRatio, scale and scale_factor, the scale
    offset that of the first present among ScaleOffset, offset and
    add_offset; the field is left out when that value is empty, also
    when a later alias has a value, and it is never the empty string. *)
Theorem scale_fields_first_present_key (fileName : string) (iBand : nat) (subBand : Band) :
  let md := GetMetadata_Dict subBand in
  let s := src (band_descriptor fileName iBand subBand) in
  (forall v, md !! "ScaleRatio" = Some v -> ScaleRatio s = nonempty v) /\
  (forall v, md !! "ScaleRatio" = None -> md !! "scale" = Some v ->
             ScaleRatio s = nonempty v) /\
  (forall v, md !! "ScaleRatio" = None -> md !! "scale" = None ->
             md !! "scale_factor" = Some v -> ScaleRatio s = nonempty v) /\
  (md !! "ScaleRatio" = None -> md !! "scale" = None -> md !! "scale_factor" = None ->
   ScaleRatio s = None) /\
  (forall v, md !! "ScaleOffset" = Some v -> ScaleOffset s = nonempty v) /\
  (forall v, md !! "ScaleOffset" = None -> md !! "offset" = Some v ->
             ScaleOffset s = nonempty v) /\
  (forall v, md !! "ScaleOffset" = None -> md !! "offset" = None ->
             md !! "add_offset" = Some v -> ScaleOffset s = nonempty v) /\
  (md !! "ScaleOffset" = None -> md !! "offset" = None -> md !! "add_offset" = None ->
   ScaleOffset s = None) /\
  ScaleRatio s <> Some "" /\ ScaleOffset s <> Some "".
Proof.
  intros md s. subst s. unfold band_descriptor. cbn [src ScaleRatio ScaleOffset].
  rewrite !py_get_pop_if_in_ne by done. fold md. unfold py_get.
  repeat split; intros; repeat match goal with H : _ !! _ = _ |- _ => rewrite H end;
    try reflexivity; apply nonempty_not_empty.
Qed.

Lemma scale_fields_first_present_key_witness :
  ScaleRatio (src (band_descriptor "f" 0 SampleBand.sst)) = None /\
  ScaleOffset (src (band_descriptor "f" 0 SampleBand.sst)) = Some "273.15".
Proof.
  pose proof (scale_fields_first_present_key "f" 0 SampleBand.sst)
    as (H1 & _ & _ & _ & _ & _ & H7 & _).
  split.
  - apply (H1 ""). vm_compute. reflexivity.
  - apply (H7 "273.15"); vm_compute; reflexivity.
Defined.

Lemma lookup_foldl_pop_if_in_None (keys : list string) (d : gmap string string) (k : string) :
  d !! k = None -> foldl pop_if_in d keys !! k = None.
Proof.
  revert d. induction keys as [|key keys IH]; intros d Hnone; [exact Hnone|].
  cbn [foldl]. apply IH. unfold pop_if_in. destruct (d !! key); [|exact Hnone].
  destruct (decide (key = k)) as [->|Hne].
  - apply lookup_delete_eq.
  - by rewrite lookup_delete_ne.
Qed.

Lemma lookup_foldl_pop_if_in_elem (keys : list string) (d : gmap string string) (k : string) :
  k ∈ keys -> foldl pop_if_in d keys !! k = None.
Proof.
  revert d. induction keys as [|key keys IH]; intros d Hin; [by apply elem_of_nil in Hin|].
  cbn [foldl]. destruct (decide (key = k)) as [->|Hne].
  - apply lookup_foldl_pop_if_in_None. unfold pop_if_in.
    destruct (d !! k) eqn:Hk; [apply lookup_delete_eq|exact Hk].
  - apply IH. apply elem_of_cons in Hin as [->|Hin]; [done|exact Hin].
Qed.

Lemma lookup_pop_if_in_eq (d : gmap string string) (key : string) :
  pop_if_in d key !! key = None.
Proof.
  unfold pop_if_in. destruct (d !! key) eqn:Hk; [apply lookup_delete_eq|exact Hk].
Qed.

(** The destination descriptor before the cleaning loop: the band
    metadata without the pixel-function marker, with wkv and, when a
    name was found, with name. *)
Lemma band_descriptor_dst_other (fileName : string) (iBand : nat) (subBand : Band)
    (k : string) :
  k ∉ rmMetadatas -> k <> "wkv" -> k <> "name" ->
  dst (band_descriptor fileName iBand subBand) !! k
  = pop_if_in (GetMetadata_Dict subBand) "PixelFunctionType" !! k.
Proof.
  intros Hrm Hwkv Hname. unfold band_descriptor. cbn [dst].
  rewrite lookup_foldl_pop_if_in by done.
  match goal with
  | |- match ?b with EmptyString => _ | String _ _ => _ end !! _ = _ => destruct b
  end.
  - by rewrite lookup_insert_ne.
  - rewrite lookup_insert_ne by done. by rewrite lookup_insert_ne.
Qed.

(** X2. A destination descriptor never holds one of the bookkeeping keys
    NETCDF_VARNAME, _FillValue, _Unsigned, ScaleRatio, ScaleOffset,
    dods_variable, nor PixelFunctionType. Every other key of the raw
    band metadata, wkv and name apart, is carried over with its value,
    and no other key is added: the aliases scale, scale_factor, offset
    and add_offset stay in the descriptor. *)
Theorem dst_cleaned (fileName : string) (iBand : nat) (subBand : Band) :
  let d := dst (band_descriptor fileName iBand subBand) in
  (forall k, k ∈ rmMetadatas \/ k = "PixelFunctionType" -> d !! k = None) /\
  (forall k, k ∉ rmMetadatas -> k <> "PixelFunctionType" -> k <> "wkv" -> k <> "name" ->
             d !! k = GetMetadata_Dict subBand !! k).
Proof.
  intros d. subst d. split.
  - intros k [Hin| ->].
    + unfold band_descriptor. cbn [dst]. by apply lookup_foldl_pop_if_in_elem.
    + rewrite band_descriptor_dst_other;
        [apply lookup_pop_if_in_eq
        |apply (bool_decide_unpack _); vm_compute; exact I|done|done].
  - intros k Hrm Hpft Hwkv Hname. rewrite band_descriptor_dst_other by done.
    by apply lookup_pop_if_in_ne.
Qed.

Lemma dst_cleaned_witness :
  dst (band_descriptor "f" 0 SampleBand.sst) !! "NETCDF_VARNAME" = None /\
  dst (band_descriptor "f" 0 SampleBand.sst) !! "scale_factor" = Some "0.01".
Proof.
  pose proof (dst_cleaned "f" 0 SampleBand.sst) as [H1 H2]. split.
  - apply H1. left. apply (bool_decide_unpack _). vm_compute. exact I.
  - rewrite H2; [vm_compute; reflexivity
                |apply (bool_decide_unpack _); vm_compute; exact I|done|done|done].
Defined.

(** The name found for a band, and the entry name of its descriptor. *)
Lemma band_descriptor_name (fileName : string) (iBand : nat) (subBand : Band) :
  dst (band_descriptor fileName iBand subBand) !! "name"
  = match (match py_get (GetMetadata_Dict subBand) "NETCDF_VARNAME" "" with
           | EmptyString => py_get (GetMetadata_Dict subBand) "dods_variable" ""
           | n => n
           end) with
    | EmptyString => GetMetadata_Dict subBand !! "name"
    | n => Some n
    end.
Proof.
  unfold band_descriptor. cbn [dst].
  rewrite lookup_foldl_pop_if_in by (apply (bool_decide_unpack _); vm_compute; exact I).
  assert (Hget : forall k default, k <> "wkv" -> k <> "PixelFunctionType" ->
            py_get (<["wkv" := py_get (pop_if_in (GetMetadata_Dict subBand)
                                         "PixelFunctionType") "standard_name" ""]>
                      (pop_if_in (GetMetadata_Dict subBand) "PixelFunctionType")) k default
            = py_get (GetMetadata_Dict subBand) k default).
  { intros k default H1 H2. unfold py_get.
    rewrite lookup_insert_ne by done. by rewrite lookup_pop_if_in_ne. }
  rewrite !Hget by done.
  match goal with
  | |- match ?b with EmptyString => _ | String _ _ => _ end !! _ = _ => destruct b
  end.
  - rewrite lookup_insert_ne by done. by apply lookup_pop_if_in_ne.
  - by rewrite lookup_insert_eq.
Qed.

(** X3. The name of a destination descriptor is the NETCDF_VARNAME of
    the band when that is not empty, else its dods_variable when that is
    not empty; when both are missing or empty the descriptor keeps
    whatever the raw metadata had under name (nothing, if it had no such
    key). *)
Theorem dst_name_fallback (fileName : string) (iBand : nat) (subBand : Band) :
  let md := GetMetadata_Dict subBand in
  let d := dst (band_descriptor fileName iBand subBand) in
  (forall v, md !! "NETCDF_VARNAME" = Some v -> v <> "" -> d !! "name" = Some v) /\
  (forall v, py_get md "NETCDF_VARNAME" "" = "" -> md !! "dods_variable" = Some v ->
             v <> "" -> d !! "name" = Some v) /\
  (py_get md "NETCDF_VARNAME" "" = "" -> py_get md "dods_variable" "" = "" ->
   d !! "name" = md !! "name").
Proof.
  intros md d. subst d md. split; [|split].
  - intros v Hv Hne. rewrite band_descriptor_name. unfold py_get at 1 2. rewrite Hv.
    destruct v as [|c v]; [done|reflexivity].
  - intros v Hnc Hv Hne. rewrite band_descriptor_name, Hnc. unfold py_get. rewrite Hv.
    destruct v as [|c v]; [done|reflexivity].
  - intros Hnc Hdods. rewrite band_descriptor_name, Hnc, Hdods. reflexivity.
Qed.

Lemma dst_name_fallback_witness :
  dst (band_descriptor "f" 0 SampleBand.sst) !! "name" = Some "sst" /\
  dst (band_descriptor "f" 0 SampleBand.named) !! "name" = Some "raw".
Proof.
  split.
  - apply (proj1 (dst_name_fallback "f" 0 SampleBand.sst) "sst"); [vm_compute; reflexivity|done].
  - rewrite (proj2 (proj2 (dst_name_fallback "f" 0 SampleBand.named)));
      vm_compute; reflexivity.
Defined.

(** ** Reference grid: which files give bands, which are discarded *)

Section ScanMore.

Variable gdal_Open : string -> SubDataset.

Lemma classify_metaDict_eq (st : locals) (f : string) (sd : SubDataset) :
  metaDict (classify st f sd)
  = if decide ((RasterXSize sd = firstXSize st /\ RasterYSize sd = firstYSize st) /\
               is_x_name f = false /\ is_y_name f = false)
    then metaDict st ++ band_descriptors f sd
    else metaDict st.
Proof.
  unfold classify. destruct (decide (RasterXSize sd = _ /\ _)) as [Hs|Hs].
  - destruct (is_x_name f); [by rewrite decide_False by (intros (_ & ? & _); done)|].
    destruct (is_y_name f); [by rewrite decide_False by (intros (_ & _ & ?); done)|].
    by rewrite decide_True.
  - by rewrite decide_False by tauto.
Qed.

Lemma classify_other_size (st : locals) (f : string) (sd : SubDataset) :
  ~ (RasterXSize sd = firstXSize st /\ RasterYSize sd = firstYSize st) ->
  classify st f sd = st.
Proof. intros H. unfold classify. by rewrite decide_False. Qed.

(** The state in which the last file of a list is classified, when the
    list has a reference grid. *)
Lemma loop_body_settled (fileNames : list string) (f : string) (ref : SubDataset) :
  firstSubDataset (scan gdal_Open (fileNames ++ [f])) = Some ref ->
  scan gdal_Open (fileNames ++ [f])
  = classify (choose_first (scan gdal_Open fileNames) (gdal_Open f)) f (gdal_Open f) /\
  firstXSize (choose_first (scan gdal_Open fileNames) (gdal_Open f)) = RasterXSize ref /\
  firstYSize (choose_first (scan gdal_Open fileNames) (gdal_Open f)) = RasterYSize ref /\
  has_grid ref /\
  (firstSubDataset (scan gdal_Open fileNames) = Some ref \/
   firstSubDataset (scan gdal_Open fileNames) = None /\ ref = gdal_Open f).
Proof.
  intros Href. pose proof (scan_first gdal_Open (fileNames ++ [f])) as (_ & _ & Hnew).
  rewrite Href in Hnew. destruct Hnew as (HX & HY & Hgrid).
  rewrite scan_snoc in Href, HX, HY. unfold loop_body in Href, HX, HY.
  destruct (classify_keeps_first
              (choose_first (scan gdal_Open fileNames) (gdal_Open f)) f (gdal_Open f))
    as (E1 & _ & E3 & E4).
  rewrite E1 in Href. rewrite E3 in HX. rewrite E4 in HY.
  split; [by rewrite scan_snoc|]. do 3 (split; [done|]).
  revert Href. unfold choose_first. destruct (decide _) as [Hc|Hc]; cbn.
  - intros [= <-]. right. split; [|done].
    pose proof (scan_first gdal_Open fileNames) as (_ & _ & Hold).
    destruct (firstSubDataset (scan gdal_Open fileNames)) as [old|]; [|done].
    destruct Hold as (HoX & _ & Hog). unfold has_grid in Hog. lia.
  - by left.
Qed.

Lemma no_reference_snoc (fileNames : list string) (f : string) :
  firstSubDataset (scan gdal_Open (fileNames ++ [f])) = None ->
  firstSubDataset (scan gdal_Open fileNames) = None /\ ~ has_grid (gdal_Open f).
Proof.
  intros Hnone. split.
  - destruct (scan_first gdal_Open (fileNames ++ [f])) as (Hf & _).
    rewrite Hnone in Hf. symmetry in Hf. apply fmap_None, head_None in Hf.
    destruct (scan_first gdal_Open fileNames) as (-> & _).
    unfold grid_names in *. rewrite filter_app in Hf.
    apply app_eq_nil in Hf as [-> _]. reflexivity.
  - apply (no_grid_before_first gdal_Open (fileNames ++ [f]) f Hnone).
    apply elem_of_app. right. left.
Qed.

Lemma data_names_before_first (fileNames : list string) (ref : SubDataset) :
  firstSubDataset (scan gdal_Open fileNames) = None -> has_grid ref ->
  data_names gdal_Open ref fileNames = [].
Proof.
  intros Hnone Hgrid. unfold data_names. apply filter_none.
  intros g Hg [Hsame _]. apply (no_grid_before_first gdal_Open fileNames g Hnone Hg).
  by eapply same_size_has_grid.
Qed.

Lemma scan_metaDict_data (fileNames : list string) :
  (forall f, f ∈ fileNames -> ~ zero_size (gdal_Open f)) ->
  metaDict (scan gdal_Open fileNames)
  = match firstSubDataset (scan gdal_Open fileNames) with
    | Some ref =>
        flat_map (fun f => band_descriptors f (gdal_Open f))
                 (data_names gdal_Open ref fileNames)
    | None => []
    end.
Proof.
  induction fileNames as [|f fileNames IH] using rev_ind; intros Hnz; [done|].
  assert (Hnz' : forall g, g ∈ fileNames -> ~ zero_size (gdal_Open g)).
  { intros g Hg. apply Hnz. apply elem_of_app. by left. }
  assert (Hf : ~ zero_size (gdal_Open f)).
  { apply Hnz. apply elem_of_app. right. left. }
  specialize (IH Hnz').
  destruct (firstSubDataset (scan gdal_Open (fileNames ++ [f]))) as [ref|] eqn:Href.
  - destruct (loop_body_settled fileNames f ref Href) as (-> & HX & HY & Hgrid & Hold).
    rewrite classify_metaDict_eq, HX, HY.
    destruct (choose_first_keeps_sources (scan gdal_Open fileNames) (gdal_Open f))
      as (_ & _ & ->).
    assert (Hprev : metaDict (scan gdal_Open fileNames)
                    = flat_map (fun f => band_descriptors f (gdal_Open f))
                               (data_names gdal_Open ref fileNames)).
    { destruct Hold as [Hold|[Hold _]].
      - by rewrite IH, Hold.
      - rewrite IH, Hold. by rewrite data_names_before_first. }
    unfold data_names. rewrite filter_app. fold (data_names gdal_Open ref fileNames).
    rewrite flat_map_app, <- Hprev.
    destruct (decide ((RasterXSize (gdal_Open f) = RasterXSize ref /\
                       RasterYSize (gdal_Open f) = RasterYSize ref) /\
                      is_x_name f = false /\ is_y_name f = false)) as [Hd|Hd].
    + rewrite filter_cons_True by (unfold same_size; tauto).
      cbn. by rewrite app_nil_r.
    + rewrite filter_cons_False by (unfold same_size; tauto).
      cbn. by rewrite app_nil_r.
  - destruct (no_reference_snoc fileNames f Href) as [Hold Hng].
    rewrite scan_snoc. unfold loop_body. rewrite choose_first_no_grid by done.
    destruct (scan_first gdal_Open fileNames) as (_ & _ & Hsz). rewrite Hold in Hsz.
    destruct Hsz as [HX HY].
    rewrite classify_other_size by (rewrite HX, HY; exact Hf).
    by rewrite IH, Hold.
Qed.

Lemma flat_map_length_sum {A B} (g : A -> list B) (l : list A) :
  length (flat_map g l) = sum_list ((fun a => length (g a)) <$> l).
Proof.
  induction l as [|a l IH]; [reflexivity|].
  cbn. by rewrite length_app, IH.
Qed.

End ScanMore.

(** X4. When no file has the size 0 x 0, the band descriptors are those
    of the files that have the size of the reference grid and neither an
    X nor a Y name, file after file in input order and band after band;
    their number is the sum of the band counts of these files. Without a
    reference grid there is none. *)
Theorem band_descriptors_of_data_files (gdal_Open : string -> SubDataset)
    (fileNames : list string) :
  (forall f, f ∈ fileNames -> ~ zero_size (gdal_Open f)) ->
  (forall ref,
     firstSubDataset (scan gdal_Open fileNames) = Some ref ->
     metaDict (scan gdal_Open fileNames)
     = flat_map (fun f => band_descriptors f (gdal_Open f))
                (data_names gdal_Open ref fileNames) /\
     length (metaDict (scan gdal_Open fileNames))
     = sum_list ((fun f => length (bands (gdal_Open f)))
                   <$> data_names gdal_Open ref fileNames)) /\
  (firstSubDataset (scan gdal_Open fileNames) = None ->
   metaDict (scan gdal_Open fileNames) = []).
Proof.
  intros Hnz. pose proof (scan_metaDict_data gdal_Open fileNames Hnz) as H.
  split.
  - intros ref Href. rewrite Href in H. split; [exact H|].
    rewrite H, flat_map_length_sum. f_equal. apply list_fmap_ext.
    intros i f _. unfold band_descriptors. apply length_imap.
  - intros Hnone. by rewrite Hnone in H.
Qed.

Lemma band_descriptors_of_data_files_witness :
  length (metaDict (scan SampleGrid.open SampleGrid.names)) = 3%nat.
Proof.
  assert (Hnz : forall f, f ∈ SampleGrid.names -> ~ zero_size (SampleGrid.open f)).
  { intros f Hf [HX _]. unfold SampleGrid.open in HX.
    repeat destruct (decide _); cbn in HX; lia. }
  destruct (band_descriptors_of_data_files SampleGrid.open SampleGrid.names Hnz) as [H _].
  destruct (H (SampleGrid.open "first")) as [_ ->]; vm_compute; reflexivity.
Defined.

(** X5. A file whose size is not that of the reference grid found
    before it is discarded whole: the loop ends in the same state as on
    the list without it. Before any reference grid the same holds for a
    file without a grid, unless its size is 0 x 0. *)
Theorem other_size_files_discarded (gdal_Open : string -> SubDataset)
    (before : list string) (f : string) (after : list string) :
  (forall ref,
     firstSubDataset (scan gdal_Open before) = Some ref ->
     ~ same_size ref (gdal_Open f) ->
     scan gdal_Open (before ++ f :: after) = scan gdal_Open (before ++ after)) /\
  (firstSubDataset (scan gdal_Open before) = None ->
   ~ has_grid (gdal_Open f) -> ~ zero_size (gdal_Open f) ->
   scan gdal_Open (before ++ f :: after) = scan gdal_Open (before ++ after)).
Proof.
  assert (Hstep : loop_body gdal_Open (scan gdal_Open before) f = scan gdal_Open before ->
                  scan gdal_Open (before ++ f :: after) = scan gdal_Open (before ++ after)).
  { intros Hb. unfold scan. rewrite !foldl_app. cbn [foldl].
    fold (scan gdal_Open before). by rewrite Hb. }
  pose proof (scan_first gdal_Open before) as (_ & _ & Hsz).
  split.
  - intros ref Href Hsize. apply Hstep. rewrite Href in Hsz.
    destruct Hsz as (HX & HY & Hgrid). unfold loop_body.
    rewrite choose_first_settled by (unfold has_grid in Hgrid; lia).
    apply classify_other_size. rewrite HX, HY. exact Hsize.
  - intros Hnone Hng Hnz. apply Hstep. rewrite Hnone in Hsz.
    destruct Hsz as [HX HY]. unfold loop_body.
    rewrite choose_first_no_grid by done.
    apply classify_other_size. rewrite HX, HY. exact Hnz.
Qed.

Lemma other_size_files_discarded_witness :
  scan SampleGrid.open (["first"] ++ "small" :: ["longitude"; "other"])
  = scan SampleGrid.open (["first"] ++ ["longitude"; "other"]).
Proof.
  apply (proj1 (other_size_files_discarded SampleGrid.open ["first"] "small"
                  ["longitude"; "other"]) (SampleGrid.open "first")).
  - vm_compute. reflexivity.
  - intros [HX _]. vm_compute in HX. discriminate.
Defined.

(** ** Projection repair, once more *)

Lemma repare_char_idempotent (c : ascii) : repare_char (repare_char c) = repare_char c.
Proof.
  unfold repare_char. destruct (decide (c = PyStr.pipe)) as [->|Hp]; [reflexivity|].
  destruct (decide (c = PyStr.amp)) as [->|Ha]; [reflexivity|].
  by rewrite !decide_False.
Qed.

Lemma map_string_length (f : ascii -> ascii) (s : string) :
  String.length (map_string f s) = String.length s.
Proof. induction s as [|c s IH]; [reflexivity|]. cbn. by rewrite IH. Qed.

(** X6. Repairing twice is repairing once, the repaired string has the
    length of the original, and it holds neither a pipe nor an
    ampersand. *)
Theorem repare_projection_idempotent (projection : string) :
  repare_projection (repare_projection projection) = repare_projection projection /\
  String.length (repare_projection projection) = String.length projection /\
  occurs PyStr.pipe (repare_projection projection) = false /\
  occurs PyStr.amp (repare_projection projection) = false.
Proof.
  rewrite !repare_projection_map. split; [|split].
  - induction projection as [|c s IH]; [reflexivity|].
    cbn [map_string]. by rewrite repare_char_idempotent, IH.
  - apply map_string_length.
  - split; induction projection as [|c s IH]; try reflexivity;
      cbn [map_string occurs]; rewrite IH; unfold repare_char;
      destruct (decide (c = PyStr.pipe)) as [->|Hp]; try reflexivity;
      destruct (decide (c = PyStr.amp)) as [->|Ha]; try reflexivity;
      by rewrite decide_False.
Qed.

(** ** Ground-control points, further *)

(** X7. A list of tokens parses exactly when every non-empty token is
    accepted by [float]; the values are those of the non-empty tokens,
    in order, and the empty tokens leave no trace. *)
Theorem parse_values_nonempty_tokens (tokens : list string) (values : list pyfloat) :
  parse_values tokens = Ok values <->
  Forall2 (fun t v => PyNum.float t = Some v) (filter (fun t => t <> "") tokens) values.
Proof.
  revert values. induction tokens as [|x tokens IH]; intros values.
  - cbn. split; [intros [= <-]; constructor|].
    intros H. by apply Forall2_nil_inv_l in H as ->.
  - destruct x as [|c x].
    + rewrite filter_cons_False by (intros H; by apply H). cbn [parse_values]. apply IH.
    + rewrite filter_cons_True by done. cbn [parse_values].
      destruct (PyNum.float (String c x)) as [v|] eqn:Hv.
      * destruct (parse_values tokens) as [vs|e] eqn:Hp; cbn.
        -- split.
           ++ intros [= <-]. constructor; [done|]. by apply IH.
           ++ intros H. apply Forall2_cons_inv_l in H as (v' & vs' & Hv' & Hrest & ->).
              apply IH in Hrest. congruence.
        -- split; [done|]. intros H.
           apply Forall2_cons_inv_l in H as (v' & vs' & Hv' & Hrest & ->).
           apply IH in Hrest. congruence.
      * split; [done|]. intros H.
        apply Forall2_cons_inv_l in H as (v' & vs' & Hv' & _). congruence.
Qed.

Lemma parse_values_nonempty_tokens_witness :
  parse_values ["1"; ""; "2.5"; ""] = Ok [Finite 1; Finite (5 # 2)].
Proof.
  apply (proj2 (parse_values_nonempty_tokens ["1"; ""; "2.5"; ""] [Finite 1; Finite (5 # 2)])).
  rewrite filter_cons_True by done. rewrite filter_cons_False by (intros H; by apply H).
  rewrite filter_cons_True by done. rewrite filter_cons_False by (intros H; by apply H).
  repeat constructor.
Defined.

Lemma gcp_rows_z (pixel line x y : list pyfloat) :
  Forall (fun g => GCPZ g = Finite 0) (gcp_rows pixel line x y).
Proof.
  revert line x y. induction pixel as [|p pixel IH]; intros line x y; [constructor|].
  destruct line as [|l0 line]; [constructor|]. destruct x as [|x0 x]; [constructor|].
  destruct y as [|y0 y]; [constructor|]. cbn. constructor; [reflexivity|apply IH].
Qed.

(** X8. Whenever the parsing of the points succeeds, the four series
    parsed, none of the line, X and Y series is shorter than the pixel
    series, there are as many points as pixel values, the i-th point is
    made of the i-th values of the four series, and every point has
    z = 0. *)
Theorem parse_gcps_success (md : gmap string string) (gcps : list GCP) :
  parse_gcps md = Ok gcps ->
  exists pixel line x y,
    gcp_series md "GCPPixel" = Ok pixel /\ gcp_series md "GCPLine" = Ok line /\
    gcp_series md "GCPX" = Ok x /\ gcp_series md "GCPY" = Ok y /\
    (length pixel <= length line)%nat /\ (length pixel <= length x)%nat /\
    (length pixel <= length y)%nat /\
    gcps = gcp_rows pixel line x y /\ length gcps = length pixel /\
    Forall (fun g => GCPZ g = Finite 0) gcps.
Proof.
  intros Hok.
  destruct (gcp_series md "GCPPixel") as [pixel|e] eqn:Hp;
    [|unfold parse_gcps, gcpNames in Hok; cbn [all_series] in Hok;
      rewrite Hp in Hok; discriminate].
  destruct (gcp_series md "GCPLine") as [line|e] eqn:Hl;
    [|unfold parse_gcps, gcpNames in Hok; cbn [all_series] in Hok;
      rewrite Hp, Hl in Hok; discriminate].
  destruct (gcp_series md "GCPX") as [x|e] eqn:Hx;
    [|unfold parse_gcps, gcpNames in Hok; cbn [all_series] in Hok;
      rewrite Hp, Hl, Hx in Hok; discriminate].
  destruct (gcp_series md "GCPY") as [y|e] eqn:Hy;
    [|unfold parse_gcps, gcpNames in Hok; cbn [all_series] in Hok;
      rewrite Hp, Hl, Hx, Hy in Hok; discriminate].
  rewrite (parse_gcps_four md pixel line x y Hp Hl Hx Hy), build_gcps_rows in Hok.
  destruct (decide _) as [(H1 & H2 & H3)|]; [|discriminate].
  injection Hok as <-. exists pixel, line, x, y.
  do 7 (split; [done|]). split; [reflexivity|].
  split; [by apply gcp_rows_length|apply gcp_rows_z].
Qed.

Lemma parse_gcps_success_witness :
  exists pixel line x y,
    gcp_series Sample.gcp_short_pixel "GCPPixel" = Ok pixel /\
    gcp_series Sample.gcp_short_pixel "GCPLine" = Ok line /\
    gcp_series Sample.gcp_short_pixel "GCPX" = Ok x /\
    gcp_series Sample.gcp_short_pixel "GCPY" = Ok y /\
    (length pixel <= length line)%nat /\ (length pixel <= length x)%nat /\
    (length pixel <= length y)%nat /\
    [Sample.point1] = gcp_rows pixel line x y /\ length [Sample.point1] = length pixel /\
    Forall (fun g => GCPZ g = Finite 0) [Sample.point1].
Proof.
  apply (parse_gcps_success Sample.gcp_short_pixel [Sample.point1]).
  vm_compute. reflexivity.
Defined.

Lemma gcpLineCount_zero (md : gmap string string) (name : string) :
  (forall k, is_Some (md !! k) -> PyStr.contains name k = false) ->
  gcpLineCount md name = 0%nat.
Proof.
  intros Hno. unfold gcpLineCount. rewrite filter_none; [reflexivity|].
  intros k Hk Hc. apply list_elem_of_fmap in Hk as ([k' v] & -> & Hkv).
  apply elem_of_map_to_list in Hkv. rewrite Hno in Hc by (cbn; eauto). discriminate.
Qed.

Lemma gcp_series_no_key (md : gmap string string) (name : string) :
  (forall k, is_Some (md !! k) -> PyStr.contains name k = false) ->
  gcp_series md name = Ok [].
Proof.
  intros Hno. unfold gcp_series, gcp_string. by rewrite gcpLineCount_zero.
Qed.

(** X9. When no key of the geolocation metadata contains the name of one
    of the four series (an empty mapping, for one),
    [add_gcps_from_metadata] returns 0 without raising and without a
    call on the container. *)
Theorem no_gcp_keys_no_gcps (md : gmap string string) (tr : list call) :
  (forall name k, name ∈ gcpNames -> is_Some (md !! k) -> PyStr.contains name k = false) ->
  add_gcps_from_metadata md tr = (Ok 0, tr).
Proof.
  intros Hno. rewrite add_gcps_from_metadata_cases.
  assert (Hs : forall name, name ∈ gcpNames -> gcp_series md name = Ok []).
  { intros name Hin. apply gcp_series_no_key. intros k. by apply Hno. }
  rewrite (parse_gcps_four md [] [] [] []);
    [reflexivity|apply Hs; unfold gcpNames; set_solver..].
Qed.

Lemma no_gcp_keys_no_gcps_witness :
  add_gcps_from_metadata (<["GeoTransform" := "(0|1|0|0|0|1)"]> ∅) [] = (Ok 0, []).
Proof.
  apply no_gcp_keys_no_gcps. intros name k Hin [v Hv].
  destruct (decide (k = "GeoTransform")) as [->|Hne].
  - unfold gcpNames in Hin.
    repeat (apply elem_of_cons in Hin as [->|Hin]; [vm_compute; reflexivity|]).
    by apply elem_of_nil in Hin.
  - rewrite lookup_insert_ne in Hv by done. by rewrite lookup_empty in Hv.
Defined.

(** X10. What [add_gcps_from_metadata] leaves behind. When it raises,
    nothing was written to the container. When it returns, the value is
    the number of points parsed; for zero nothing was written, otherwise
    exactly two calls were made: [SetGCPs] with the points and the
    repaired GCPProjection entry (the empty string when there is none),
    then the removal of the geotransform. *)
Theorem add_gcps_outcomes (md : gmap string string) (tr tr' : list call) (r : result Z) :
  add_gcps_from_metadata md tr = (r, tr') ->
  match r with
  | Raise e => tr' = tr /\ parse_gcps md = Raise e
  | Ok n =>
      exists gcps,
        parse_gcps md = Ok gcps /\ n = Z.of_nat (length gcps) /\
        tr' = tr ++ (if decide (n = 0) then []
                     else [SetGCPs gcps (repare_projection (py_get md "GCPProjection" ""));
                           remove_geotransform])
  end.
Proof.
  rewrite add_gcps_from_metadata_cases.
  destruct (parse_gcps md) as [[|g gcps]|e]; intros [= <- <-].
  - exists []. by rewrite app_nil_r.
  - exists (g :: gcps). split; [done|]. split; [done|].
    rewrite decide_False by (cbn; lia). reflexivity.
  - done.
Qed.

Lemma add_gcps_outcomes_witness :
  exists gcps,
    parse_gcps Sample.gcp_two_points = Ok gcps /\ 2 = Z.of_nat (length gcps) /\
    [SetGCPs [Sample.point1; Sample.point2] ""; remove_geotransform]
    = [] ++ (if decide (2 = 0) then []
             else [SetGCPs gcps
                     (repare_projection (py_get Sample.gcp_two_points "GCPProjection" ""));
                   remove_geotransform]).
Proof.
  apply (add_gcps_outcomes Sample.gcp_two_points []
           [SetGCPs [Sample.point1; Sample.point2] ""; remove_geotransform] (Ok 2)).
  vm_compute. reflexivity.
Defined.

(** ** The geolocation model and the constructor, further *)

Lemma geolocation_shape_calls (xs ys : string) (calls : list call) :
  geolocation_shape xs ys calls -> Forall (fun c => geolocation_call c = true) calls.
Proof.
  intros [->|[->|[[t ->]|[(g & p & _ & ->)|(g & p & _ & ->)]]]];
    repeat constructor.
Qed.

Lemma resolve_geolocation_shape (first : SubDataset) (xs ys : string)
    (md : gmap string string) (tr tr' : list call) (r : result unit) :
  resolve_geolocation first xs ys md tr = (r, tr') ->
  exists calls, tr' = tr ++ calls /\ geolocation_shape xs ys calls.
Proof.
  assert (Hnone : exists calls, tr = tr ++ calls /\ geolocation_shape xs ys calls).
  { exists []. split; [by rewrite app_nil_r|by left]. }
  assert (Harray : exists calls, tr ++ [add_geolocationArray xs ys] = tr ++ calls /\
                                 geolocation_shape xs ys calls).
  { exists [add_geolocationArray xs ys]. split; [done|]. right. by left. }
  unfold resolve_geolocation, bind_M.
  destruct (decide (GetGCPCount first = 0)) as [Hz|Hz].
  - rewrite add_gcps_from_metadata_cases.
    destruct (parse_gcps md) as [[|g gcps]|e].
    + destruct (decide (_ /\ _)); [by intros [= <- <-]|].
      rewrite decide_True by done.
      destruct (decide (length (vrt_GeoTransform first) = 0%nat));
        [|by intros [= <- <-]].
      destruct (PyNum.eval_tuple _) as [t|]; [|by intros [= <- <-]].
      intros [= <- <-]. exists [SetGeoTransform t]. split; [done|].
      right. right. left. by exists t.
    + destruct (decide (_ /\ _)).
      * intros [= <- <-].
        exists [SetGCPs (g :: gcps) (repare_projection (py_get md "GCPProjection" ""));
                remove_geotransform; add_geolocationArray xs ys].
        split; [by rewrite <- (assoc_L (++))|]. do 4 right.
        eexists _, _. split; [|reflexivity]. discriminate.
      * rewrite decide_False by (cbn; lia). intros [= <- <-].
        exists [SetGCPs (g :: gcps) (repare_projection (py_get md "GCPProjection" ""));
                remove_geotransform].
        split; [done|]. do 3 right. left.
        eexists _, _. split; [|reflexivity]. discriminate.
    + by intros [= <- <-].
  - cbn. destruct (decide (_ /\ _)); [by intros [= <- <-]|].
    rewrite decide_False by done. by intros [= <- <-].
Qed.

(** X11. The calls of the constructor. Without a reference grid it
    raises before any call. With one it creates the container from the
    reference grid and the normalised metadata, creates the bands, sets
    the projection, each once and in this order, and then makes one of
    five sequences of geolocation calls: none; the geolocation array;
    the geotransform; the points and the removal of the geotransform;
    or these two followed by the geolocation array. So a geotransform is
    never set together with points or with a geolocation array, and
    points are never set without removing the geotransform. This holds
    as well when the constructor ends with an exception. *)
Theorem constructor_calls (gdal_Open : string -> SubDataset) (latlongSRS_wkt fileName : string)
    (subDatasets gdalMetadata : list (string * string)) (tr tr' : list call)
    (r : result unit) :
  let st := scan gdal_Open (fileNames_of fileName subDatasets) in
  Mapper_init gdal_Open latlongSRS_wkt fileName subDatasets gdalMetadata tr = (r, tr') ->
  match firstSubDataset st with
  | None => r = Raise (UnboundLocalError "firstSubDataset") /\ tr' = tr
  | Some first =>
      exists calls,
        tr' = tr ++ [VRT_init first (normalize gdalMetadata).1;
                     create_bands (metaDict st);
                     SetProjection (repare_projection
                       (choose_projection latlongSRS_wkt (normalize gdalMetadata).2
                          (GetProjection first)))] ++ calls /\
        geolocation_shape (xDatasetSource st) (yDatasetSource st) calls
  end.
Proof.
  intros st. destruct (firstSubDataset st) as [first|] eqn:Hfirst.
  - rewrite (Mapper_init_with_grid _ _ _ _ _ first) by exact Hfirst. fold st.
    intros Hres. apply resolve_geolocation_shape in Hres as (calls & -> & Hshape).
    exists calls. split; [by rewrite <- (assoc_L (++))|exact Hshape].
  - rewrite Mapper_init_without_grid by exact Hfirst. by intros [= <- <-].
Qed.

Lemma constructor_calls_witness :
  exists calls,
    [VRT_init (Sample.grid 3) ∅;
     create_bands (metaDict (scan (fun _ => Sample.grid 3) (Sample.with_lon_lat.*1)));
     SetProjection Sample.wgs84;
     add_geolocationArray "longitude" "latitude"]
    = [] ++ [VRT_init (Sample.grid 3) (normalize []).1;
             create_bands (metaDict (scan (fun _ => Sample.grid 3)
                                       (fileNames_of "file" Sample.with_lon_lat)));
             SetProjection (repare_projection
               (choose_projection Sample.wgs84 (normalize []).2
                  (GetProjection (Sample.grid 3))))] ++ calls /\
    geolocation_shape
      (xDatasetSource (scan (fun _ => Sample.grid 3) (fileNames_of "file" Sample.with_lon_lat)))
      (yDatasetSource (scan (fun _ => Sample.grid 3) (fileNames_of "file" Sample.with_lon_lat)))
      calls.
Proof.
  apply (constructor_calls (fun _ => Sample.grid 3) Sample.wgs84 "file" Sample.with_lon_lat
           [] [] _ (Ok tt)).
  vm_compute. reflexivity.
Defined.

Lemma pair_absent (xs ys : string) :
  xs = "" \/ ys = "" -> ~ (0 < String.length xs /\ 0 < String.length ys)%nat.
Proof. intros [-> | ->]; cbn; lia. Qed.

(** X12. Without a complete pair of geolocation sources the constructor
    leaves the geolocation of the container as [VRT.__init__] made it,
    with no call after the projection, in two cases: the reference grid
    has native points; or it has none, the metadata give none either,
    and the container already reports a geotransform. *)
Theorem geolocation_left_untouched (gdal_Open : string -> SubDataset)
    (latlongSRS_wkt fileName : string) (subDatasets gdalMetadata : list (string * string))
    (first : SubDataset) (tr : list call) :
  let st := scan gdal_Open (fileNames_of fileName subDatasets) in
  firstSubDataset st = Some first ->
  xDatasetSource st = "" \/ yDatasetSource st = "" ->
  GetGCPCount first <> 0 \/
  (GetGCPCount first = 0 /\ parse_gcps (normalize gdalMetadata).2 = Ok [] /\
   vrt_GeoTransform first <> []) ->
  Mapper_init gdal_Open latlongSRS_wkt fileName subDatasets gdalMetadata tr
  = (Ok tt,
     tr ++ [VRT_init first (normalize gdalMetadata).1;
            create_bands (metaDict st);
            SetProjection (repare_projection
              (choose_projection latlongSRS_wkt (normalize gdalMetadata).2
                 (GetProjection first)))]).
Proof.
  intros st Hfirst Hpair Hcase.
  rewrite (Mapper_init_with_grid _ _ _ _ _ first) by exact Hfirst. fold st.
  unfold resolve_geolocation, bind_M. apply pair_absent in Hpair.
  destruct Hcase as [Hn|(Hz & Hparse & Hgt)].
  - rewrite decide_False by done. cbn.
    rewrite decide_False by done. by rewrite decide_False.
  - rewrite decide_True by done. rewrite add_gcps_from_metadata_cases, Hparse.
    rewrite decide_False by done. rewrite decide_True by done.
    rewrite decide_False; [done|]. by destruct (vrt_GeoTransform first).
Qed.

Lemma geolocation_left_untouched_witness :
  Mapper_init (fun _ => SampleInit.projected) Sample.wgs84 "file" [] [] []
  = (Ok tt,
     [VRT_init SampleInit.projected ∅;
      create_bands (metaDict (scan (fun _ => SampleInit.projected) ["file"]));
      SetProjection "PROJCS[native]"]).
Proof.
  apply (geolocation_left_untouched (fun _ => SampleInit.projected) Sample.wgs84 "file"
           [] [] SampleInit.projected []).
  - vm_compute. reflexivity.
  - left. vm_compute. reflexivity.
  - right. split; [reflexivity|]. split; [vm_compute; reflexivity|]. discriminate.
Defined.

(** X13. When the reference grid has no native point and the metadata
    give at least one, the points are installed with the repaired
    GCPProjection entry and the geotransform is removed; a complete
    pair of geolocation sources is installed on top of them as
    geolocation array, and no geotransform is set. *)
Theorem metadata_gcps_installed (gdal_Open : string -> SubDataset)
    (latlongSRS_wkt fileName : string) (subDatasets gdalMetadata : list (string * string))
    (first : SubDataset) (gcps : list GCP) (tr : list call) :
  let st := scan gdal_Open (fileNames_of fileName subDatasets) in
  let geoMetadata := (normalize gdalMetadata).2 in
  firstSubDataset st = Some first ->
  GetGCPCount first = 0 ->
  parse_gcps geoMetadata = Ok gcps -> gcps <> [] ->
  Mapper_init gdal_Open latlongSRS_wkt fileName subDatasets gdalMetadata tr
  = (Ok tt,
     tr ++ [VRT_init first (normalize gdalMetadata).1;
            create_bands (metaDict st);
            SetProjection (repare_projection
              (choose_projection latlongSRS_wkt geoMetadata (GetProjection first)));
            SetGCPs gcps (repare_projection (py_get geoMetadata "GCPProjection" ""));
            remove_geotransform]
        ++ (if decide (xDatasetSource st <> "" /\ yDatasetSource st <> "")
            then [add_geolocationArray (xDatasetSource st) (yDatasetSource st)]
            else [])).
Proof.
  intros st geoMetadata Hfirst Hz Hparse Hne.
  rewrite (Mapper_init_with_grid _ _ _ _ _ first) by exact Hfirst. fold st geoMetadata.
  unfold resolve_geolocation, bind_M.
  rewrite decide_True by done. rewrite add_gcps_from_metadata_cases, Hparse.
  destruct gcps as [|g gcps]; [done|].
  destruct (decide (xDatasetSource st <> "" /\ yDatasetSource st <> "")) as [[Hx Hy]|Hno].
  - rewrite decide_True by (split; by apply string_length_pos).
    unfold emit. by rewrite <- !(assoc_L (++)).
  - rewrite decide_False.
    + rewrite decide_False by (cbn; lia). unfold ret_M.
      by rewrite <- !(assoc_L (++)), app_nil_r.
    + intros [Hx Hy]. apply Hno.
      split; intros Heq; rewrite Heq in *; cbn in *; lia.
Qed.

Lemma metadata_gcps_installed_witness :
  Mapper_init (fun _ => Sample.grid 0) Sample.wgs84 "file" Sample.with_lon_lat
    SampleInit.gcp_metadata []
  = (Ok tt,
     [VRT_init (Sample.grid 0) ∅;
      create_bands (metaDict (scan (fun _ => Sample.grid 0) (Sample.with_lon_lat.*1)));
      SetProjection (String "G" (String "E" (String "O" (String "G" (String "C"
        (String "S" (String "[" (String PyStr.dquote (String "W" (String "G"
        (String "S" (String " " (String "8" (String "4" (String PyStr.dquote
        ",DATUM]")))))))))))))));
      SetGCPs [Sample.point1; Sample.point2]
        (String "G" (String "E" (String "O" (String "G" (String "C"
        (String "S" (String "[" (String PyStr.dquote (String "W" (String "G"
        (String "S" (String " " (String "8" (String "4" (String PyStr.dquote
        ",DATUM]")))))))))))))));
      remove_geotransform;
      add_geolocationArray "longitude" "latitude"]).
Proof.
  rewrite (metadata_gcps_installed (fun _ => Sample.grid 0) Sample.wgs84 "file"
             Sample.with_lon_lat SampleInit.gcp_metadata (Sample.grid 0)
             [Sample.point1; Sample.point2] []).
  - vm_compute. reflexivity.
  - vm_compute. reflexivity.
  - reflexivity.
  - vm_compute. reflexivity.
  - discriminate.
Defined.

(** X14. When the reference grid has no native point and the parsing of
    the points raises, the constructor ends with that exception after
    the container, the bands and the projection were made: neither the
    geolocation array of a complete pair of sources nor a geotransform
    is installed. *)
Theorem gcp_error_leaves_constructor (gdal_Open : string -> SubDataset)
    (latlongSRS_wkt fileName : string) (subDatasets gdalMetadata : list (string * string))
    (first : SubDataset) (e : exn) (tr : list call) :
  let st := scan gdal_Open (fileNames_of fileName subDatasets) in
  firstSubDataset st = Some first ->
  GetGCPCount first = 0 ->
  parse_gcps (normalize gdalMetadata).2 = Raise e ->
  Mapper_init gdal_Open latlongSRS_wkt fileName subDatasets gdalMetadata tr
  = (Raise e,
     tr ++ [VRT_init first (normalize gdalMetadata).1;
            create_bands (metaDict st);
            SetProjection (repare_projection
              (choose_projection latlongSRS_wkt (normalize gdalMetadata).2
                 (GetProjection first)))]).
Proof.
  intros st Hfirst Hz Hparse.
  rewrite (Mapper_init_with_grid _ _ _ _ _ first) by exact Hfirst. fold st.
  unfold resolve_geolocation, bind_M.
  rewrite decide_True by done. by rewrite add_gcps_from_metadata_cases, Hparse.
Qed.

Lemma gcp_error_leaves_constructor_witness :
  Mapper_init (fun _ => Sample.grid 0) Sample.wgs84 "file" Sample.with_lon_lat
    SampleInit.bad_metadata []
  = (Raise (ValueError "x"),
     [VRT_init (Sample.grid 0) ∅;
      create_bands (metaDict (scan (fun _ => Sample.grid 0) (Sample.with_lon_lat.*1)));
      SetProjection Sample.wgs84]).
Proof.
  apply (gcp_error_leaves_constructor (fun _ => Sample.grid 0) Sample.wgs84 "file"
           Sample.with_lon_lat SampleInit.bad_metadata (Sample.grid 0) (ValueError "x") []).
  - vm_compute. reflexivity.
  - reflexivity.
  - vm_compute. reflexivity.
Defined.

Lemma no_projection_among_geolocation_calls (calls : list call) :
  Forall (fun c => geolocation_call c = true) calls ->
  filter (fun c => is_SetProjection c = true) calls = [].
Proof.
  intros Hall. apply filter_none. intros c Hc Hp.
  rewrite Forall_forall in Hall. specialize (Hall c Hc). by destruct c.
Qed.

(** X15. With a reference grid the constructor sets the projection
    exactly once, whether or not it ends with an exception. The string
    is the native projection of the reference grid when that is not
    empty, else the GCPProjection entry of the geolocation metadata when
    that is not empty, else the WGS84 text; whichever it is goes through
    the repair first, the native projection included. *)
Theorem projection_set_once (gdal_Open : string -> SubDataset)
    (latlongSRS_wkt fileName : string) (subDatasets gdalMetadata : list (string * string))
    (first : SubDataset) :
  let st := scan gdal_Open (fileNames_of fileName subDatasets) in
  let geoMetadata := (normalize gdalMetadata).2 in
  let p := choose_projection latlongSRS_wkt geoMetadata (GetProjection first) in
  firstSubDataset st = Some first ->
  filter (fun c => is_SetProjection c = true)
         (snd (Mapper_init gdal_Open latlongSRS_wkt fileName subDatasets gdalMetadata []))
  = [SetProjection (repare_projection p)] /\
  (GetProjection first <> "" -> p = GetProjection first) /\
  (GetProjection first = "" -> py_get geoMetadata "GCPProjection" "" <> "" ->
   p = py_get geoMetadata "GCPProjection" "") /\
  (GetProjection first = "" -> py_get geoMetadata "GCPProjection" "" = "" ->
   p = latlongSRS_wkt).
Proof.
  intros st geoMetadata p Hfirst. split.
  - rewrite (Mapper_init_with_grid _ _ _ _ _ first) by exact Hfirst.
    fold st geoMetadata p.
    destruct (resolve_geolocation first (xDatasetSource st) (yDatasetSource st)
                geoMetadata _) as [r tr'] eqn:Hres.
    apply resolve_geolocation_shape in Hres as (calls & -> & Hshape). cbn [snd].
    rewrite filter_app, (no_projection_among_geolocation_calls calls)
      by (by eapply geolocation_shape_calls).
    reflexivity.
  - subst p. unfold choose_projection. split; [|split].
    + intros Hne. destruct (GetProjection first); [done|reflexivity].
    + intros -> Hne. destruct (py_get geoMetadata "GCPProjection" ""); [done|reflexivity].
    + intros -> ->. reflexivity.
Qed.

Lemma projection_set_once_witness :
  filter (fun c => is_SetProjection c = true)
         (snd (Mapper_init (fun _ => SampleInit.projected) Sample.wgs84 "file" []
                 SampleInit.gcp_metadata []))
  = [SetProjection "PROJCS[native]"].
Proof.
  pose proof (projection_set_once (fun _ => SampleInit.projected) Sample.wgs84 "file" []
                SampleInit.gcp_metadata SampleInit.projected) as H.
  cbv zeta in H. destruct H as (-> & Hnative & _); [vm_compute; reflexivity|].
  rewrite Hnative by discriminate. reflexivity.
Defined.

Lemma resolve_without_pair (first : SubDataset) (xs ys : string)
    (md : gmap string string) (tr tr' : list call) (r : result unit) :
  xs = "" \/ ys = "" ->
  resolve_geolocation first xs ys md tr = (r, tr') ->
  exists calls, tr' = tr ++ calls /\
                Forall (fun c => is_add_geolocationArray c = false) calls.
Proof.
  intros Hpair%pair_absent.
  assert (Hnone : exists calls, tr = tr ++ calls /\
                    Forall (fun c => is_add_geolocationArray c = false) calls).
  { exists []. split; [by rewrite app_nil_r|constructor]. }
  unfold resolve_geolocation, bind_M.
  destruct (decide (GetGCPCount first = 0)) as [Hz|Hz].
  - rewrite add_gcps_from_metadata_cases.
    destruct (parse_gcps md) as [[|g gcps]|e]; [| |by intros [= <- <-]].
    + rewrite decide_False by done. rewrite decide_True by done.
      destruct (decide (length (vrt_GeoTransform first) = 0%nat));
        [|by intros [= <- <-]].
      destruct (PyNum.eval_tuple _) as [t|]; [|by intros [= <- <-]].
      intros [= <- <-]. exists [SetGeoTransform t]. split; [done|]. by repeat constructor.
    + rewrite decide_False by done. rewrite decide_False by (cbn; lia).
      intros [= <- <-]. eexists. split; [reflexivity|]. by repeat constructor.
  - cbn. rewrite decide_False by done. rewrite decide_False by done.
    by intros [= <- <-].
Qed.

(** X16. A file without subdatasets whose own name has an X or a Y
    pattern (a path containing longitude, say) is the reference grid and
    a geolocation source at once: it gives no band, and since it cannot
    be both sources the constructor installs no geolocation array. *)
Theorem single_file_with_geolocation_name (gdal_Open : string -> SubDataset)
    (fileName : string) :
  has_grid (gdal_Open fileName) ->
  is_x_name fileName = true \/ is_y_name fileName = true ->
  let st := scan gdal_Open (fileNames_of fileName []) in
  firstSubDataset st = Some (gdal_Open fileName) /\
  metaDict st = [] /\
  (xDatasetSource st = "" \/ yDatasetSource st = "") /\
  forall latlongSRS_wkt gdalMetadata tr r tr',
    Mapper_init gdal_Open latlongSRS_wkt fileName [] gdalMetadata tr = (r, tr') ->
    exists calls,
      tr' = tr ++ [VRT_init (gdal_Open fileName) (normalize gdalMetadata).1;
                   create_bands [];
                   SetProjection (repare_projection
                     (choose_projection latlongSRS_wkt (normalize gdalMetadata).2
                        (GetProjection (gdal_Open fileName))))] ++ calls /\
      Forall (fun c => is_add_geolocationArray c = false) calls.
Proof.
  intros Hgrid Hname st.
  set (st0 := {| firstXSize := RasterXSize (gdal_Open fileName);
                 firstYSize := RasterYSize (gdal_Open fileName);
                 firstSubDataset := Some (gdal_Open fileName);
                 projection := Some (GetProjection (gdal_Open fileName));
                 xDatasetSource := ""; yDatasetSource := ""; metaDict := [] |}).
  assert (Hst : st = classify st0 fileName (gdal_Open fileName)).
  { subst st st0. unfold fileNames_of, scan. cbn [foldl]. unfold loop_body, choose_first.
    rewrite decide_True by (unfold has_grid in Hgrid; cbn; tauto). reflexivity. }
  assert (Hfirst : firstSubDataset st = Some (gdal_Open fileName)).
  { rewrite Hst. by destruct (classify_keeps_first st0 fileName (gdal_Open fileName))
      as (-> & _). }
  assert (Hmeta : metaDict st = []).
  { rewrite Hst. unfold classify, st0. cbn. rewrite decide_True by done.
    destruct (is_x_name fileName); [reflexivity|].
    destruct (is_y_name fileName); [reflexivity|]. by destruct Hname. }
  assert (Hsrc : xDatasetSource st = "" \/ yDatasetSource st = "").
  { rewrite Hst. unfold classify, st0. cbn. rewrite decide_True by done.
    destruct (is_x_name fileName); [by right|].
    destruct (is_y_name fileName); by left. }
  do 3 (split; [done|]).
  intros wkt md tr r tr'.
  rewrite (Mapper_init_with_grid _ _ _ _ _ (gdal_Open fileName)) by exact Hfirst.
  fold st. rewrite Hmeta. intros Hres.
  apply resolve_without_pair in Hres as (calls & -> & Hcalls); [|exact Hsrc].
  exists calls. split; [by rewrite <- (assoc_L (++))|exact Hcalls].
Qed.

Lemma single_file_with_geolocation_name_witness :
  metaDict (scan (fun _ => Sample.grid 0) (fileNames_of "longitude.nc" [])) = [].
Proof.
  apply (single_file_with_geolocation_name (fun _ => Sample.grid 0) "longitude.nc").
  - unfold has_grid. cbn. lia.
  - left. vm_compute. reflexivity.
Defined.

(** ** Metadata normalisation, further *)

Lemma normalize_key_separates (d : list (string * string))
    (st : gmap string string * gmap string string) (key : string)
    (P1 P2 : string -> string -> Prop) :
  (forall k v, getitem d key = Some v -> ~ is_geo_key key ->
               PyStr.split NC_GLOBAL_GDAL key !! 1%nat = Some k -> P1 k v) ->
  (forall k v, getitem d key = Some v -> is_geo_key key ->
               is_Some (PyStr.split NC_GLOBAL_GDAL key !! 1%nat) ->
               PyStr.split NC_GLOBAL_GDAL_NANSAT key !! 1%nat = Some k -> P2 k v) ->
  (forall k v, st.1 !! k = Some v -> P1 k v) ->
  (forall k v, st.2 !! k = Some v -> P2 k v) ->
  (forall k v, (normalize_key d st key).1 !! k = Some v -> P1 k v) /\
  (forall k v, (normalize_key d st key).2 !! k = Some v -> P2 k v).
Proof.
  intros Hnew1 Hnew2 H1 H2. unfold normalize_key. destruct st as [tmp geo].
  cbn [fst snd] in H1, H2.
  destruct (getitem d key) as [value|]; [|done].
  destruct (PyStr.split NC_GLOBAL_GDAL key !! 1%nat) as [k1|] eqn:Hk1; [|done].
  destruct (PyStr.contains "NANSAT" key) eqn:Hn.
  - destruct (PyStr.split NC_GLOBAL_GDAL_NANSAT key !! 1%nat) as [k2|] eqn:Hk2.
    + cbn [fst snd]. split.
      * intros k v Hl. destruct (decide (k1 = k)) as [<-|Hne].
        -- by rewrite lookup_delete_eq in Hl.
        -- rewrite lookup_delete_ne, lookup_insert_ne in Hl by done. by apply H1.
      * intros k v Hl. destruct (decide (k2 = k)) as [<-|Hne].
        -- rewrite lookup_insert_eq in Hl. injection Hl as <-.
           apply Hnew2; [done| |by eauto|done]. split; [done|]. rewrite Hk2. eauto.
        -- rewrite lookup_insert_ne in Hl by done. by apply H2.
    + cbn [fst snd]. split; [|done].
      intros k v Hl. destruct (decide (k1 = k)) as [<-|Hne].
      * rewrite lookup_insert_eq in Hl. injection Hl as <-.
        apply Hnew1; [done| |done]. intros [_ [x Hx]]. congruence.
      * rewrite lookup_insert_ne in Hl by done. by apply H1.
  - cbn [fst snd]. split; [|done].
    intros k v Hl. destruct (decide (k1 = k)) as [<-|Hne].
    + rewrite lookup_insert_eq in Hl. injection Hl as <-.
      apply Hnew1; [done| |done]. intros [Hc _]. congruence.
    + rewrite lookup_insert_ne in Hl by done. by apply H1.
Qed.

(** X17. The two mappings of the normalisation keep apart. An entry of
    the primary mapping is the de-prefixed key and the value of a raw
    key that is not a geolocation key; an entry of the geolocation
    mapping is the further-stripped key and the value of a raw key that
    is one (NANSAT occurs in it and it splits at
    NC_GLOBAL#GDAL_NANSAT_). *)
Theorem normalize_separates (gdalMetadata : list (string * string)) :
  (forall k v, (normalize gdalMetadata).1 !! k = Some v ->
     exists key, key ∈ gdalMetadata.*1 /\ ~ is_geo_key key /\
                 PyStr.split NC_GLOBAL_GDAL key !! 1%nat = Some k /\
                 getitem gdalMetadata key = Some v) /\
  (forall k v, (normalize gdalMetadata).2 !! k = Some v ->
     exists key, key ∈ gdalMetadata.*1 /\ is_geo_key key /\
                 is_Some (PyStr.split NC_GLOBAL_GDAL key !! 1%nat) /\
                 PyStr.split NC_GLOBAL_GDAL_NANSAT key !! 1%nat = Some k /\
                 getitem gdalMetadata key = Some v).
Proof.
  unfold normalize.
  assert (Hgen : forall keys st,
            keys ⊆ gdalMetadata.*1 ->
            (forall k v, st.1 !! k = Some v ->
               exists key, key ∈ gdalMetadata.*1 /\ ~ is_geo_key key /\
                           PyStr.split NC_GLOBAL_GDAL key !! 1%nat = Some k /\
                           getitem gdalMetadata key = Some v) ->
            (forall k v, st.2 !! k = Some v ->
               exists key, key ∈ gdalMetadata.*1 /\ is_geo_key key /\
                           is_Some (PyStr.split NC_GLOBAL_GDAL key !! 1%nat) /\
                           PyStr.split NC_GLOBAL_GDAL_NANSAT key !! 1%nat = Some k /\
                           getitem gdalMetadata key = Some v) ->
            (forall k v, (foldl (normalize_key gdalMetadata) st keys).1 !! k = Some v ->
               exists key, key ∈ gdalMetadata.*1 /\ ~ is_geo_key key /\
                           PyStr.split NC_GLOBAL_GDAL key !! 1%nat = Some k /\
                           getitem gdalMetadata key = Some v) /\
            (forall k v, (foldl (normalize_key gdalMetadata) st keys).2 !! k = Some v ->
               exists key, key ∈ gdalMetadata.*1 /\ is_geo_key key /\
                           is_Some (PyStr.split NC_GLOBAL_GDAL key !! 1%nat) /\
                           PyStr.split NC_GLOBAL_GDAL_NANSAT key !! 1%nat = Some k /\
                           getitem gdalMetadata key = Some v)).
  { induction keys as [|key keys IH]; intros st Hsub H1 H2; [by split|].
    cbn [foldl].
    assert (Hin : key ∈ gdalMetadata.*1) by (apply Hsub; left).
    destruct (normalize_key_separates gdalMetadata st key
                (fun k v => exists key, key ∈ gdalMetadata.*1 /\ ~ is_geo_key key /\
                              PyStr.split NC_GLOBAL_GDAL key !! 1%nat = Some k /\
                              getitem gdalMetadata key = Some v)
                (fun k v => exists key, key ∈ gdalMetadata.*1 /\ is_geo_key key /\
                              is_Some (PyStr.split NC_GLOBAL_GDAL key !! 1%nat) /\
                              PyStr.split NC_GLOBAL_GDAL_NANSAT key !! 1%nat = Some k /\
                              getitem gdalMetadata key = Some v))
      as [H1' H2']; [by eauto 6|by eauto 7|exact H1|exact H2|].
    apply IH; [|exact H1'|exact H2']. intros x Hx. apply Hsub. by right. }
  apply Hgen; [done| |]; intros k v Hl; cbn in Hl; by rewrite lookup_empty in Hl.
Qed.

Lemma normalize_separates_witness :
  exists key, key ∈ Sample.raw_metadata.*1 /\ is_geo_key key /\
              is_Some (PyStr.split NC_GLOBAL_GDAL key !! 1%nat) /\
              PyStr.split NC_GLOBAL_GDAL_NANSAT key !! 1%nat = Some "GCPX_000" /\
              getitem Sample.raw_metadata key = Some "10.0".
Proof.
  apply (proj2 (normalize_separates Sample.raw_metadata) "GCPX_000" "10.0").
  vm_compute. reflexivity.
Defined.

Lemma find_at_start (sub s : string) :
  PyStr.startswith sub s = true -> PyStr.find sub s = Some 0%nat.
Proof. intros H. destruct s; cbn; by rewrite H. Qed.

Lemma startswith_prefix (p s : string) : PyStr.startswith p (p +:+ s) = true.
Proof.
  induction p as [|c p IH]; [by destruct s|].
  rewrite string_app_cons. cbn. by rewrite decide_True.
Qed.

Lemma drop_prefix (p s : string) : PyStr.drop (String.length p) (p +:+ s) = s.
Proof.
  induction p as [|c p IH]; [by destruct s|]. rewrite string_app_cons. exact IH.
Qed.

Lemma take_zero (s : string) : PyStr.take 0 s = "".
Proof. by destruct s. Qed.

Lemma find_not_contained (sub s : string) :
  PyStr.contains sub s = false -> PyStr.find sub s = None.
Proof. unfold PyStr.contains. by destruct (PyStr.find sub s). Qed.

(** Splitting a prefixed string at its prefix, when the prefix does not
    occur again. *)
Lemma split_prefixed (p k : string) :
  p <> "" -> PyStr.contains p k = false -> PyStr.split p (p +:+ k) = [""; k].
Proof.
  intros Hp Hk. rewrite split_unfold by done.
  rewrite find_at_start by apply startswith_prefix.
  rewrite take_zero. cbn [Nat.add]. rewrite drop_prefix.
  rewrite split_unfold by done. by rewrite find_not_contained.
Qed.

Lemma split_first_piece (sep s : string) : is_Some (PyStr.split sep s !! 0%nat).
Proof.
  unfold PyStr.split. destruct (String.length s); cbn [PyStr.split_from]; [by eauto|].
  destruct (PyStr.find sep s); by eauto.
Qed.

Lemma getitem_unique (d : list (string * string)) (key v : string) :
  NoDup d.*1 -> (key, v) ∈ d -> getitem d key = Some v.
Proof.
  induction d as [|[k w] d IH]; intros Hnd Hin; [by apply elem_of_nil in Hin|].
  rewrite fmap_cons in Hnd. apply NoDup_cons in Hnd as [Hk Hnd]. cbn [getitem].
  apply elem_of_cons in Hin as [[= -> ->]|Hin].
  - by rewrite decide_True.
  - rewrite decide_False; [by apply IH|].
    intros ->. apply Hk. apply list_elem_of_fmap. by exists (key, v).
Qed.

Lemma prefixed_keys (p : string) (g : gmap string string) :
  (prefixed p g).*1 = (fun kv => p +:+ kv.1) <$> map_to_list g.
Proof. unfold prefixed. rewrite <- list_fmap_compose. reflexivity. Qed.

Lemma prefixed_getitem (p : string) (g : gmap string string) (k v : string) :
  (k, v) ∈ map_to_list g -> getitem (prefixed p g) (p +:+ k) = Some v.
Proof.
  intros Hin. apply getitem_unique.
  - rewrite prefixed_keys.
    replace ((fun kv : string * string => p +:+ kv.1) <$> map_to_list g)
      with ((String.app p) <$> (map_to_list g).*1)
      by (by rewrite <- list_fmap_compose).
    apply NoDup_fmap_2; [apply _|apply NoDup_fst_map_to_list].
  - unfold prefixed. apply list_elem_of_fmap. by exists (k, v).
Qed.

Lemma list_to_map_reverse_to_list (g : gmap string string) :
  list_to_map (reverse (map_to_list g)) = g.
Proof.
  rewrite <- (list_to_map_to_list g) at 2. apply list_to_map_proper.
  - rewrite fmap_reverse, reverse_Permutation. apply NoDup_fst_map_to_list.
  - apply reverse_Permutation.
Qed.

(** One turn of the loop on a key made of the geolocation prefix and a
    name in which that prefix does not occur. *)
Lemma normalize_key_geo (d : list (string * string)) (geo : gmap string string)
    (k v : string) :
  getitem d (NC_GLOBAL_GDAL_NANSAT +:+ k) = Some v ->
  PyStr.contains NC_GLOBAL_GDAL_NANSAT k = false ->
  normalize_key d (∅, geo) (NC_GLOBAL_GDAL_NANSAT +:+ k) = (∅, <[k := v]> geo).
Proof.
  intros Hitem Hk. unfold normalize_key. rewrite Hitem.
  assert (H1 : PyStr.find NC_GLOBAL_GDAL (NC_GLOBAL_GDAL_NANSAT +:+ k) = Some 0%nat)
    by reflexivity.
  assert (Hk1 : is_Some (PyStr.split NC_GLOBAL_GDAL (NC_GLOBAL_GDAL_NANSAT +:+ k) !! 1%nat)).
  { rewrite split_unfold by done. rewrite H1. cbn [lookup list_lookup].
    apply split_first_piece. }
  destruct Hk1 as [k1 ->].
  replace (PyStr.contains "NANSAT" (NC_GLOBAL_GDAL_NANSAT +:+ k)) with true by reflexivity.
  rewrite split_prefixed by done. cbn [lookup list_lookup].
  by rewrite delete_insert_eq, delete_empty.
Qed.

(** One turn of the loop on a key made of the plain prefix and a name in
    which neither that prefix nor NANSAT occurs. *)
Lemma normalize_key_plain (d : list (string * string)) (tmp geo : gmap string string)
    (k v : string) :
  getitem d (NC_GLOBAL_GDAL +:+ k) = Some v ->
  PyStr.contains NC_GLOBAL_GDAL k = false -> PyStr.contains "NANSAT" k = false ->
  normalize_key d (tmp, geo) (NC_GLOBAL_GDAL +:+ k) = (<[k := v]> tmp, geo).
Proof.
  intros Hitem Hk Hn. unfold normalize_key. rewrite Hitem.
  rewrite split_prefixed by done. cbn [lookup list_lookup].
  replace (PyStr.contains "NANSAT" (NC_GLOBAL_GDAL +:+ k)) with false; [reflexivity|].
  apply find_not_contained in Hn. unfold PyStr.contains.
  change (PyStr.find "NANSAT" (NC_GLOBAL_GDAL +:+ k))
    with (S <$> (S <$> (S <$> (S <$> (S <$> (S <$> (S <$> (S <$> (S <$> (S <$> (S <$>
          (S <$> (S <$> (S <$> (S <$> PyStr.find "NANSAT" k))))))))))))))).
  by rewrite Hn.
Qed.

(** X18. Round trip through the prefixes. A dictionary whose keys are
    NC_GLOBAL#GDAL_NANSAT_ followed by the keys of a mapping [g] (in
    which that prefix does not occur again) is normalised to an empty
    primary mapping and to [g] as geolocation mapping. A dictionary
    whose keys are NC_GLOBAL#GDAL_ followed by the keys of [g] (in which
    neither that prefix nor NANSAT occurs) is normalised to [g] as
    primary mapping and to an empty geolocation mapping. *)
Theorem normalize_round_trip (g : gmap string string) :
  ((forall k, is_Some (g !! k) -> PyStr.contains NC_GLOBAL_GDAL_NANSAT k = false) ->
   normalize (prefixed NC_GLOBAL_GDAL_NANSAT g) = (∅, g)) /\
  ((forall k, is_Some (g !! k) ->
      PyStr.contains NC_GLOBAL_GDAL k = false /\ PyStr.contains "NANSAT" k = false) ->
   normalize (prefixed NC_GLOBAL_GDAL g) = (g, ∅)).
Proof.
  split.
  - intros Hg. unfold normalize. rewrite prefixed_keys.
    rewrite <- (list_to_map_reverse_to_list g) at 3.
    assert (Hall : forall kv, kv ∈ map_to_list g ->
              getitem (prefixed NC_GLOBAL_GDAL_NANSAT g) (NC_GLOBAL_GDAL_NANSAT +:+ kv.1)
              = Some kv.2 /\ PyStr.contains NC_GLOBAL_GDAL_NANSAT kv.1 = false).
    { intros [k v] Hin. split; [by apply prefixed_getitem|].
      apply Hg. apply elem_of_map_to_list in Hin. eauto. }
    revert Hall. generalize (prefixed NC_GLOBAL_GDAL_NANSAT g). intros d.
    induction (map_to_list g) as [|[k v] l IH] using rev_ind; intros Hall; [reflexivity|].
    rewrite fmap_app, foldl_app, IH by (intros kv Hkv; apply Hall, elem_of_app; by left).
    rewrite reverse_snoc. cbn [fmap list_fmap foldl fst].
    destruct (Hall (k, v)) as [Hitem Hk]; [apply elem_of_app; right; left|].
    cbn [fst snd] in Hitem, Hk. rewrite list_to_map_cons.
    exact (normalize_key_geo d _ k v Hitem Hk).
  - intros Hg. unfold normalize. rewrite prefixed_keys.
    rewrite <- (list_to_map_reverse_to_list g) at 3.
    assert (Hall : forall kv, kv ∈ map_to_list g ->
              getitem (prefixed NC_GLOBAL_GDAL g) (NC_GLOBAL_GDAL +:+ kv.1) = Some kv.2 /\
              PyStr.contains NC_GLOBAL_GDAL kv.1 = false /\
              PyStr.contains "NANSAT" kv.1 = false).
    { intros [k v] Hin. split; [by apply prefixed_getitem|].
      apply Hg. apply elem_of_map_to_list in Hin. eauto. }
    revert Hall. generalize (prefixed NC_GLOBAL_GDAL g). intros d.
    induction (map_to_list g) as [|[k v] l IH] using rev_ind; intros Hall; [reflexivity|].
    rewrite fmap_app, foldl_app, IH by (intros kv Hkv; apply Hall, elem_of_app; by left).
    rewrite reverse_snoc. cbn [fmap list_fmap foldl fst].
    destruct (Hall (k, v)) as (Hitem & Hk & Hn); [apply elem_of_app; right; left|].
    cbn [fst snd] in Hitem, Hk, Hn. rewrite list_to_map_cons.
    exact (normalize_key_plain d _ _ k v Hitem Hk Hn).
Qed.

Lemma normalize_round_trip_witness :
  normalize (prefixed NC_GLOBAL_GDAL_NANSAT SampleMeta.geo) = (∅, SampleMeta.geo) /\
  normalize (prefixed NC_GLOBAL_GDAL SampleMeta.plain) = (SampleMeta.plain, ∅).
Proof.
  split.
  - apply (proj1 (normalize_round_trip SampleMeta.geo)).
    assert (H : map_Forall (fun k _ => PyStr.contains NC_GLOBAL_GDAL_NANSAT k = false)
                  SampleMeta.geo)
      by (apply (bool_decide_unpack _); vm_compute; exact I).
    intros k [v Hv]. exact (H k v Hv).
  - apply (proj2 (normalize_round_trip SampleMeta.plain)).
    assert (H : map_Forall (fun k _ => PyStr.contains NC_GLOBAL_GDAL k = false /\
                                       PyStr.contains "NANSAT" k = false)
                  SampleMeta.plain)
      by (apply (bool_decide_unpack _); vm_compute; exact I).
    intros k [v Hv]. exact (H k v Hv).
Defined.
